(** * OnWhisper-Bot: the database manager of [utils/db_manager.py]

    A shallow embedding of [DatabaseTransaction] and [DatabaseManager]:
    the in-process cache, the remote key-value store behind it, the
    transaction scope and the guild document operations, with the Python
    exceptions the code can raise written out. *)

From Stdlib Require Import ZArith String Ascii List Lia.
From stdpp Require Import base option gmap strings list pretty.

Set Warnings "-register-all".

Open Scope string_scope.

(** ** Python values

    The values the manager stores are the JSON-compatible ones: [None],
    booleans, integers, strings, lists and dictionaries with string keys.
    A dictionary keeps its insertion order, so it is an association list
    whose keys are pairwise distinct. A string is a sequence of code
    points below 256. Floats are outside the model. *)

Inductive value : Type :=
| PNone
| PBool (b : bool)
| PInt (n : Z)
| PStr (s : string)
| PList (l : list value)
| PDict (d : list (string * value)).

Inductive exn : Type :=
| AttributeError | TypeError | KeyError | ValueError
| OverflowError | RuntimeError | ClientError.

Inductive res (A : Type) : Type :=
| Ok (a : A)
| Raise (e : exn).
Arguments Ok {A} a.
Arguments Raise {A} e.

Module Py.

(** [bool(v)]: what [x or y] and [not x] look at. *)
Definition truthy (v : value) : bool :=
  match v with
  | PNone => false
  | PBool b => b
  | PInt n => negb (n =? 0)%Z
  | PStr s => negb (String.eqb s "")
  | PList l => match l with [] => false | _ => true end
  | PDict d => match d with [] => false | _ => true end
  end.

(** [x or y] *)
Definition or_ (x y : value) : value := if truthy x then x else y.

Fixpoint dict_get (d : list (string * value)) (k : string) : option value :=
  match d with
  | [] => None
  | (k', v) :: d' => if String.eqb k' k then Some v else dict_get d' k
  end.

(** [d[k] = v] on a dictionary: an existing key keeps its position, a
    new key goes last. *)
Fixpoint dict_set (d : list (string * value)) (k : string) (v : value)
  : list (string * value) :=
  match d with
  | [] => [(k, v)]
  | (k', v') :: d' =>
      if String.eqb k' k then (k', v) :: d' else (k', v') :: dict_set d' k v
  end.

(** [a in b] for two strings. *)
Fixpoint substring_of (a b : string) : bool :=
  String.prefix a b ||
  match b with
  | EmptyString => false
  | String _ b' => substring_of a b'
  end.

Definition is_str (s : string) (v : value) : bool :=
  match v with PStr s' => String.eqb s' s | _ => false end.

(** [obj.get(k, default)]: only a dictionary has the method. *)
Definition get (obj : value) (k : string) (dflt : value) : res value :=
  match obj with
  | PDict d => Ok (default dflt (dict_get d k))
  | _ => Raise AttributeError
  end.

(** [obj[k]] with a string subscript. *)
Definition getitem (obj : value) (k : string) : res value :=
  match obj with
  | PDict d => match dict_get d k with Some v => Ok v | None => Raise KeyError end
  | _ => Raise TypeError
  end.

(** [obj[k] = v] with a string subscript. *)
Definition setitem (obj : value) (k : string) (v : value) : res value :=
  match obj with
  | PDict d => Ok (PDict (dict_set d k v))
  | _ => Raise TypeError
  end.

(** [obj.append(v)]: only a list has the method. *)
Definition append (obj : value) (v : value) : res value :=
  match obj with
  | PList l => Ok (PList (l ++ [v]))
  | _ => Raise AttributeError
  end.

(** [k in obj] for a string [k]: a key of a dictionary, an element of a
    list, a substring of a string. *)
Definition contains (k : string) (obj : value) : res bool :=
  match obj with
  | PDict d => Ok (bool_decide (is_Some (dict_get d k)))
  | PList l => Ok (existsb (is_str k) l)
  | PStr s => Ok (substring_of k s)
  | _ => Raise TypeError
  end.

Fixpoint chars (s : string) : list value :=
  match s with
  | EmptyString => []
  | String c s' => PStr (String c EmptyString) :: chars s'
  end.

(** [for x in obj]: the elements of a list, the characters of a string,
    the keys of a dictionary. *)
Definition iter (obj : value) : res (list value) :=
  match obj with
  | PList l => Ok l
  | PStr s => Ok (chars s)
  | PDict d => Ok (map (fun kv => PStr (fst kv)) d)
  | _ => Raise TypeError
  end.

(** [l[-n:]] *)
Definition last_n {A} (n : nat) (l : list A) : list A :=
  drop (length l - n)%nat l.

End Py.

(** ** The Python runtime

    [json], [datetime] and [repr] belong to the interpreter, not to this
    repository. The manager is written over this interface, and every
    general theorem below holds for each implementation of it;
    [CPython.runtime] further down is the one the concrete runs use.

    A naive [datetime] is the number of microseconds since
    0001-01-01T00:00:00. [fromisoformat] answers [None] on every string on
    which the comparison with a naive [datetime] raises: a [ValueError] of
    the parser, or an offset-aware result. *)

Class PyRuntime : Type := {
  json_dumps : value -> string;
  json_loads : string -> option value;
  isoformat : Z -> string;
  fromisoformat : string -> option Z;
  repr : value -> string
}.

(** [str(v)], as an f-string formats [v]. *)
Definition str_ `{PyRuntime} (v : value) : string :=
  match v with
  | PStr s => s
  | PInt n => pretty n
  | PNone => "None"
  | PBool true => "True"
  | PBool false => "False"
  | _ => repr v
  end.

Module CPython.

Definition dquote : ascii := "034"%char.
Definition squote : ascii := "039"%char.
Definition backslash : ascii := "092"%char.

Definition hex_digit (n : N) : ascii :=
  ascii_of_N (if (n <? 10)%N then 48 + n else 87 + n)%N.

Definition hex2 (n : N) : string :=
  String (hex_digit (n / 16)) (String (hex_digit (n mod 16)) "").

Definition printable (c : ascii) : bool :=
  let n := N_of_ascii c in (32 <=? n)%N && (n <=? 126)%N.

(** One character of a JSON string literal, [ensure_ascii] style. *)
Definition json_escape_char (c : ascii) : string :=
  let n := N_of_ascii c in
  if Ascii.eqb c dquote then String backslash (String dquote "")
  else if Ascii.eqb c backslash then String backslash (String backslash "")
  else if (n =? 10)%N then String backslash "n"
  else if (n =? 13)%N then String backslash "r"
  else if (n =? 9)%N then String backslash "t"
  else if (n =? 8)%N then String backslash "b"
  else if (n =? 12)%N then String backslash "f"
  else if printable c then String c ""
  else String backslash ("u00" ++ hex2 n).

Fixpoint json_escape (s : string) : string :=
  match s with
  | EmptyString => ""
  | String c s' => json_escape_char c ++ json_escape s'
  end.

Definition json_string (s : string) : string :=
  String dquote (json_escape s ++ String dquote "").

(** [json.dumps(v)] with the default separators. *)
Fixpoint dumps (v : value) : string :=
  match v with
  | PNone => "null"
  | PBool true => "true"
  | PBool false => "false"
  | PInt n => pretty n
  | PStr s => json_string s
  | PList l =>
      "[" ++
      (fix items (l : list value) : string :=
         match l with
         | [] => ""
         | x :: l' =>
             dumps x ++ match l' with [] => "" | _ => ", " ++ items l' end
         end) l ++ "]"
  | PDict d =>
      "{" ++
      (fix items (d : list (string * value)) : string :=
         match d with
         | [] => ""
         | (k, x) :: d' =>
             json_string k ++ ": " ++ dumps x ++
             match d' with [] => "" | _ => ", " ++ items d' end
         end) d ++ "}"
  end.

(** [repr(v)]: single quotes unless the string has one and no double
    quote; a code point that is not printable is written as [\xNN]. *)
Fixpoint has_char (c : ascii) (s : string) : bool :=
  match s with
  | EmptyString => false
  | String c' s' => Ascii.eqb c c' || has_char c s'
  end.

Definition repr_printable (c : ascii) : bool :=
  let n := N_of_ascii c in
  printable c || ((161 <=? n)%N && negb (n =? 173)%N).

Definition repr_char (q c : ascii) : string :=
  let n := N_of_ascii c in
  if Ascii.eqb c q then String backslash (String q "")
  else if Ascii.eqb c backslash then String backslash (String backslash "")
  else if (n =? 10)%N then String backslash "n"
  else if (n =? 13)%N then String backslash "r"
  else if (n =? 9)%N then String backslash "t"
  else if repr_printable c then String c ""
  else String backslash ("x" ++ hex2 n).

Definition repr_string (s : string) : string :=
  let q := if has_char squote s && negb (has_char dquote s)
           then dquote else squote in
  String q ((fix go (s : string) : string :=
               match s with
               | EmptyString => ""
               | String c s' => repr_char q c ++ go s'
               end) s ++ String q "").

Fixpoint repr_value (v : value) : string :=
  match v with
  | PNone => "None"
  | PBool true => "True"
  | PBool false => "False"
  | PInt n => pretty n
  | PStr s => repr_string s
  | PList l =>
      "[" ++
      (fix items (l : list value) : string :=
         match l with
         | [] => ""
         | x :: l' =>
             repr_value x ++ match l' with [] => "" | _ => ", " ++ items l' end
         end) l ++ "]"
  | PDict d =>
      "{" ++
      (fix items (d : list (string * value)) : string :=
         match d with
         | [] => ""
         | (k, x) :: d' =>
             repr_string k ++ ": " ++ repr_value x ++
             match d' with [] => "" | _ => ", " ++ items d' end
         end) d ++ "}"
  end.

(** [json.loads]: a recursive-descent reader of the same fragment
    (no floats, code points below 256); [None] is [JSONDecodeError]. *)
Definition is_ws (c : ascii) : bool :=
  let n := N_of_ascii c in
  (n =? 32)%N || (n =? 9)%N || (n =? 10)%N || (n =? 13)%N.

Fixpoint skip_ws (s : string) : string :=
  match s with
  | String c s' => if is_ws c then skip_ws s' else s
  | EmptyString => s
  end.

Definition digit_of (c : ascii) : option Z :=
  let n := N_of_ascii c in
  if (48 <=? n)%N && (n <=? 57)%N then Some (Z.of_N n - 48)%Z else None.

Definition hex_of (c : ascii) : option N :=
  let n := N_of_ascii c in
  if (48 <=? n)%N && (n <=? 57)%N then Some (n - 48)%N
  else if (97 <=? n)%N && (n <=? 102)%N then Some (n - 87)%N
  else if (65 <=? n)%N && (n <=? 70)%N then Some (n - 55)%N
  else None.

Fixpoint read_digits (acc : Z) (s : string) : Z * string :=
  match s with
  | String c s' =>
      match digit_of c with
      | Some d => read_digits (10 * acc + d)%Z s'
      | None => (acc, s)
      end
  | EmptyString => (acc, s)
  end.

Definition starts_float (s : string) : bool :=
  match s with
  | String c _ => Ascii.eqb c "."%char || Ascii.eqb c "e"%char || Ascii.eqb c "E"%char
  | EmptyString => false
  end.

(** An integer literal: [0] or a non-zero digit followed by digits. *)
Definition read_nat (s : string) : option (Z * string) :=
  match s with
  | String c s' =>
      match digit_of c with
      | Some 0%Z => if starts_float s' then None else Some (0%Z, s')
      | Some d =>
          let '(n, rest) := read_digits d s' in
          if starts_float rest then None else Some (n, rest)
      | None => None
      end
  | EmptyString => None
  end.

Definition unescape (c : ascii) : option ascii :=
  if Ascii.eqb c dquote then Some dquote
  else if Ascii.eqb c backslash then Some backslash
  else if Ascii.eqb c "/"%char then Some "/"%char
  else if Ascii.eqb c "n"%char then Some "010"%char
  else if Ascii.eqb c "r"%char then Some "013"%char
  else if Ascii.eqb c "t"%char then Some "009"%char
  else if Ascii.eqb c "b"%char then Some "008"%char
  else if Ascii.eqb c "f"%char then Some "012"%char
  else None.

(** The body of a string literal, after its opening quote. *)
Fixpoint read_string (s : string) : option (string * string) :=
  match s with
  | EmptyString => None
  | String c s' =>
      if Ascii.eqb c dquote then Some ("", s')
      else if Ascii.eqb c backslash then
        match s' with
        | String e s'' =>
            if Ascii.eqb e "u"%char then
              match s'' with
              | String h1 (String h2 (String h3 (String h4 rest))) =>
                  match hex_of h1, hex_of h2, hex_of h3, hex_of h4 with
                  | Some 0%N, Some 0%N, Some a, Some b =>
                      match read_string rest with
                      | Some (body, rest') =>
                          Some (String (ascii_of_N (16 * a + b)) body, rest')
                      | None => None
                      end
                  | _, _, _, _ => None
                  end
              | _ => None
              end
            else
              match unescape e, read_string s'' with
              | Some c', Some (body, rest') => Some (String c' body, rest')
              | _, _ => None
              end
        | EmptyString => None
        end
      else if (N_of_ascii c <? 32)%N then None
      else
        match read_string s' with
        | Some (body, rest') => Some (String c body, rest')
        | None => None
        end
  end.

Definition strip_prefix (p s : string) : option string :=
  if String.prefix p s
  then Some (String.substring (String.length p)
               (String.length s - String.length p) s)
  else None.

Fixpoint read_value (fuel : nat) (s : string) : option (value * string) :=
  match fuel with
  | O => None
  | S fuel =>
      match skip_ws s with
      | EmptyString => None
      | String c s' as s0 =>
          if Ascii.eqb c "{"%char then
            match skip_ws s' with
            | String c' s'' =>
                if Ascii.eqb c' "}"%char then Some (PDict [], s'')
                else read_members fuel [] (String c' s'')
            | EmptyString => None
            end
          else if Ascii.eqb c "["%char then
            match skip_ws s' with
            | String c' s'' =>
                if Ascii.eqb c' "]"%char then Some (PList [], s'')
                else read_elements fuel [] (String c' s'')
            | EmptyString => None
            end
          else if Ascii.eqb c dquote then
            match read_string s' with
            | Some (body, rest) => Some (PStr body, rest)
            | None => None
            end
          else if Ascii.eqb c "-"%char then
            match read_nat s' with
            | Some (n, rest) => Some (PInt (- n), rest)
            | None => None
            end
          else
            match strip_prefix "null" s0, strip_prefix "true" s0,
                  strip_prefix "false" s0 with
            | Some rest, _, _ => Some (PNone, rest)
            | _, Some rest, _ => Some (PBool true, rest)
            | _, _, Some rest => Some (PBool false, rest)
            | _, _, _ =>
                match read_nat s0 with
                | Some (n, rest) => Some (PInt n, rest)
                | None => None
                end
            end
      end
  end
with read_elements (fuel : nat) (acc : list value) (s : string)
  : option (value * string) :=
  match fuel with
  | O => None
  | S fuel =>
      match read_value fuel s with
      | Some (v, rest) =>
          match skip_ws rest with
          | String c rest' =>
              if Ascii.eqb c ","%char then read_elements fuel (acc ++ [v]) rest'
              else if Ascii.eqb c "]"%char then Some (PList (acc ++ [v]), rest')
              else None
          | EmptyString => None
          end
      | None => None
      end
  end
with read_members (fuel : nat) (acc : list (string * value)) (s : string)
  : option (value * string) :=
  match fuel with
  | O => None
  | S fuel =>
      match skip_ws s with
      | String q s' =>
          if Ascii.eqb q dquote then
            match read_string s' with
            | Some (k, rest) =>
                match skip_ws rest with
                | String c rest' =>
                    if Ascii.eqb c ":"%char then
                      match read_value fuel rest' with
                      | Some (v, rest'') =>
                          match skip_ws rest'' with
                          | String c' rest3 =>
                              if Ascii.eqb c' ","%char
                              then read_members fuel (Py.dict_set acc k v) rest3
                              else if Ascii.eqb c' "}"%char
                              then Some (PDict (Py.dict_set acc k v), rest3)
                              else None
                          | EmptyString => None
                          end
                      | None => None
                      end
                    else None
                | EmptyString => None
                end
            | None => None
            end
          else None
      | EmptyString => None
      end
  end.

Definition loads (s : string) : option value :=
  match read_value (2 * String.length s + 2) s with
  | Some (v, rest) =>
      match skip_ws rest with EmptyString => Some v | _ => None end
  | None => None
  end.

(** [datetime]: the proleptic Gregorian calendar, a naive datetime
    being its microsecond count since 0001-01-01T00:00:00. *)
Definition us_per_day : Z := 86400000000.

Definition days_from_civil (y m d : Z) : Z :=
  let y := (if m <=? 2 then y - 1 else y)%Z in
  let era := (y / 400)%Z in
  let yoe := (y - era * 400)%Z in
  let doy := ((153 * (if 2 <? m then m - 3 else m + 9) + 2) / 5 + d - 1)%Z in
  let doe := (yoe * 365 + yoe / 4 - yoe / 100 + doy)%Z in
  (era * 146097 + doe - 306)%Z.

Definition civil_from_days (z : Z) : Z * Z * Z :=
  let z := (z + 306)%Z in
  let era := (z / 146097)%Z in
  let doe := (z - era * 146097)%Z in
  let yoe := ((doe - doe / 1460 + doe / 36524 - doe / 146096) / 365)%Z in
  let doy := (doe - (365 * yoe + yoe / 4 - yoe / 100))%Z in
  let mp := ((5 * doy + 2) / 153)%Z in
  let d := (doy - (153 * mp + 2) / 5 + 1)%Z in
  let m := (if mp <? 10 then mp + 3 else mp - 9)%Z in
  ((yoe + era * 400 + (if m <=? 2 then 1 else 0))%Z, m, d).

Definition is_leap (y : Z) : bool :=
  ((y mod 4 =? 0) && (negb (y mod 100 =? 0) || (y mod 400 =? 0)))%Z.

Definition days_in_month (y m : Z) : Z :=
  if (m =? 2)%Z then (if is_leap y then 29 else 28)%Z
  else if ((m =? 4) || (m =? 6) || (m =? 9) || (m =? 11))%Z then 30%Z
  else 31%Z.

Fixpoint zeros (n : nat) : string :=
  match n with O => "" | S n' => String "0"%char (zeros n') end.

Definition pad (width : nat) (n : Z) : string :=
  let s := pretty n in zeros (width - String.length s) ++ s.

Definition iso (t : Z) : string :=
  let '(y, m, d) := civil_from_days (t / us_per_day) in
  let r := (t mod us_per_day)%Z in
  let us := (r mod 1000000)%Z in
  let secs := (r / 1000000)%Z in
  pad 4 y ++ "-" ++ pad 2 m ++ "-" ++ pad 2 d ++ "T" ++
  pad 2 (secs / 3600) ++ ":" ++ pad 2 (secs / 60 mod 60) ++ ":" ++
  pad 2 (secs mod 60) ++
  (if (us =? 0)%Z then "" else "." ++ pad 6 us).

(** Exactly [n] decimal digits. *)
Fixpoint take_digits (n : nat) (acc : Z) (s : string) : option (Z * string) :=
  match n with
  | O => Some (acc, s)
  | S n' =>
      match s with
      | String c s' =>
          match digit_of c with
          | Some d => take_digits n' (10 * acc + d)%Z s'
          | None => None
          end
      | EmptyString => None
      end
  end.

Definition expect (c : ascii) (s : string) : option string :=
  match s with
  | String c' s' => if Ascii.eqb c c' then Some s' else None
  | EmptyString => None
  end.

(** The fraction of a second: three or six digits. *)
Definition read_fraction (s : string) : option Z :=
  match take_digits 3 0 s with
  | Some (ms, EmptyString) => Some (ms * 1000)%Z
  | Some (ms, rest) =>
      match take_digits 3 ms rest with
      | Some (us, EmptyString) => Some us
      | _ => None
      end
  | None => None
  end.

(** [HH[:MM[:SS[.fff[fff]]]]] in microseconds. *)
Definition read_time (s : string) : option Z :=
  match take_digits 2 0 s with
  | Some (h, rest) =>
      if (23 <? h)%Z then None else
      match rest with
      | EmptyString => Some (h * 3600000000)%Z
      | _ =>
          match expect ":"%char rest with
          | Some rest =>
              match take_digits 2 0 rest with
              | Some (mi, rest) =>
                  if (59 <? mi)%Z then None else
                  match rest with
                  | EmptyString => Some (h * 3600000000 + mi * 60000000)%Z
                  | _ =>
                      match expect ":"%char rest with
                      | Some rest =>
                          match take_digits 2 0 rest with
                          | Some (sec, rest) =>
                              if (59 <? sec)%Z then None else
                              let base := (h * 3600000000 + mi * 60000000
                                           + sec * 1000000)%Z in
                              match rest with
                              | EmptyString => Some base
                              | _ =>
                                  match expect "."%char rest with
                                  | Some rest =>
                                      match read_fraction rest with
                                      | Some us => Some (base + us)%Z
                                      | None => None
                                      end
                                  | None => None
                                  end
                              end
                          | None => None
                          end
                      | None => None
                      end
                  end
              | None => None
              end
          | None => None
          end
      end
  | None => None
  end.

(** [YYYY-MM-DD[*HH[:MM[:SS[.fff[fff]]]]]]; a UTC offset makes the
    result offset-aware, which this reader answers with [None]. *)
Definition fromiso (s : string) : option Z :=
  match take_digits 4 0 s with
  | Some (y, rest) =>
      match expect "-"%char rest with
      | Some rest =>
          match take_digits 2 0 rest with
          | Some (m, rest) =>
              match expect "-"%char rest with
              | Some rest =>
                  match take_digits 2 0 rest with
                  | Some (d, rest) =>
                      if ((y <? 1) || (m <? 1) || (12 <? m) || (d <? 1)
                          || (days_in_month y m <? d))%Z then None else
                      let day := (days_from_civil y m d * us_per_day)%Z in
                      match rest with
                      | EmptyString => Some day
                      | String _ time =>
                          match read_time time with
                          | Some us => Some (day + us)%Z
                          | None => None
                          end
                      end
                  | None => None
                  end
              | None => None
              end
          | None => None
          end
      | None => None
      end
  | None => None
  end.

#[global] Instance runtime : PyRuntime := {
  json_dumps := dumps;
  json_loads := loads;
  isoformat := iso;
  fromisoformat := fromiso;
  repr := repr_value
}.

End CPython.

(** ** The process and the remote store

    [_cache] and [_initialized] are the manager's attributes; [locks] is
    the heap of [asyncio.Lock] objects, a lock being known by its index.
    [store] is the key-value service behind [db_url]: it keeps the text
    posted under a key. [net] schedules the fate of the coming HTTP
    requests, one entry per request, a healthy service once it runs out;
    [trace] records the requests sent, oldest first. [clock] is what
    [datetime.utcnow()] reads. The percent-encoding of a request is undone
    by the service, so requests are recorded decoded. *)

Inductive outcome : Type :=
| Served        (* the service answers *)
| Rejected      (* a status that is neither 200 nor 404 *)
| Unreachable.  (* the client raises *)

Inductive request : Type :=
| GET (key : string)
| POST (key body : string).

Record state : Type := mkState {
  _cache : gmap string value;
  _initialized : bool;
  locks : list bool;
  store : gmap string string;
  net : list outcome;
  trace : list request;
  clock : Z
}.

Definition set_cache (c : gmap string value) (st : state) : state :=
  mkState c (_initialized st) (locks st) (store st) (net st) (trace st) (clock st).
Definition set_initialized (b : bool) (st : state) : state :=
  mkState (_cache st) b (locks st) (store st) (net st) (trace st) (clock st).
Definition set_locks (l : list bool) (st : state) : state :=
  mkState (_cache st) (_initialized st) l (store st) (net st) (trace st) (clock st).
Definition set_store (s : gmap string string) (st : state) : state :=
  mkState (_cache st) (_initialized st) (locks st) s (net st) (trace st) (clock st).
Definition set_net (n : list outcome) (st : state) : state :=
  mkState (_cache st) (_initialized st) (locks st) (store st) n (trace st) (clock st).
Definition set_trace (t : list request) (st : state) : state :=
  mkState (_cache st) (_initialized st) (locks st) (store st) (net st) t (clock st).

(** A coroutine run to completion: its result, or the exception it
    raises, and the state it leaves. *)
Definition M (A : Type) : Type := state -> res A * state.

#[global] Instance M_ret : MRet M := fun A a st => (Ok a, st).
#[global] Instance M_bind : MBind M := fun A B f m st =>
  match m st with
  | (Ok a, st') => f a st'
  | (Raise e, st') => (Raise e, st')
  end.

Definition raise {A} (e : exn) : M A := fun st => (Raise e, st).

Definition lift {A} (r : res A) : M A := fun st => (r, st).

(** [try: body except Exception: handler] *)
Definition try_except {A} (body : M A) (handler : exn -> M A) : M A :=
  fun st =>
    match body st with
    | (Ok a, st') => (Ok a, st')
    | (Raise e, st') => handler e st'
    end.

(** [try: body finally: cleanup] *)
Definition try_finally {A} (body : M A) (cleanup : M unit) : M A :=
  fun st =>
    match body st with
    | (Ok a, st') =>
        match cleanup st' with
        | (Ok _, st'') => (Ok a, st'')
        | (Raise e, st'') => (Raise e, st'')
        end
    | (Raise e, st') =>
        match cleanup st' with
        | (Ok _, st'') => (Raise e, st'')
        | (Raise e', st'') => (Raise e', st'')
        end
    end.

(** [for x in xs: body(x)] *)
Fixpoint for_each {A} (xs : list A) (body : A -> M unit) : M unit :=
  match xs with
  | [] => mret tt
  | x :: xs' => body x;; for_each xs' body
  end.

Definition gets {A} (f : state -> A) : M A := fun st => (Ok (f st), st).

Definition modify (f : state -> state) : M unit := fun st => (Ok tt, f st).

Definition utcnow : M Z := gets clock.

(** The next request meets the head of [net]. *)
Definition send (r : request) : M outcome := fun st =>
  let st := set_trace (trace st ++ [r]) st in
  match net st with
  | [] => (Ok Served, st)
  | o :: rest => (Ok o, set_net rest st)
  end.

(** [session.get(f"{db_url}/{key}")]: the status and the body. *)
Definition session_get (key : string) : M (nat * string) :=
  o ← send (GET key);
  match o with
  | Served =>
      held ← gets (fun st => store st !! key);
      match held with
      | Some text => mret (200%nat, text)
      | None => mret (404%nat, "")
      end
  | Rejected => mret (500%nat, "")
  | Unreachable => raise ClientError
  end.

(** [session.post(db_url, data=f"{key}={body}")]: the status. *)
Definition session_post (key body : string) : M nat :=
  o ← send (POST key body);
  match o with
  | Served =>
      modify (fun st => set_store (<[key := body]> (store st)) st);;
      mret 200%nat
  | Rejected => mret 500%nat
  | Unreachable => raise ClientError
  end.

(** [asyncio.Lock()] *)
Definition new_lock : M nat := fun st =>
  (Ok (length (locks st)), set_locks (locks st ++ [false]) st).

(** [lock.release()] *)
Definition release (l : nat) : M unit := fun st =>
  match locks st !! l with
  | Some true => (Ok tt, set_locks (<[l := false]> (locks st)) st)
  | _ => (Raise RuntimeError, st)
  end.

#[global] Instance res_ret : MRet res := fun A a => Ok a.
#[global] Instance res_bind : MBind res := fun A B f r =>
  match r with
  | Ok a => f a
  | Raise e => Raise e
  end.

(** [[x for x in xs if keep(x)]] *)
Fixpoint filter_res (keep : value -> res bool) (xs : list value)
  : res (list value) :=
  match xs with
  | [] => Ok []
  | x :: xs' =>
      b ← keep x;
      rest ← filter_res keep xs';
      Ok (if b : bool then x :: rest else rest)
  end.

(** [datetime.utcnow() - timedelta(days=days)]: both the [timedelta] and
    the difference have a range. *)
Definition max_datetime : Z := 3652059 * CPython.us_per_day.

Definition minus_days (now days : Z) : res Z :=
  if (999999999 <? Z.abs days)%Z then Raise OverflowError
  else
    let t := (now - days * CPython.us_per_day)%Z in
    if ((0 <=? t) && (t <? max_datetime))%Z then Ok t else Raise OverflowError.

Module discord.
Record Guild : Type := mkGuild { id : Z; name : string }.
End discord.

(** ** class DatabaseTransaction: its attributes *)
Record DatabaseTransaction : Type := mkTransaction {
  guild_id : Z;
  namespace : string;
  _lock : nat;
  changes : list (string * value)
}.

(** ** class DatabaseManager

    Each method below is one call run without interleaving: the
    [aiohttp] session is opened on first use and has no bearing on a
    reply, and [_write_lock] is free on entry and released on exit, so
    neither is part of the state. [db_url] is set, or the constructor
    would have raised. *)
Section DatabaseManager.
Context `{PyRuntime}.

(** What [_write_data] sends: a string as it is, anything else through
    [json.dumps]. *)
Definition payload (data : value) : string :=
  match data with
  | PStr s => s
  | _ => json_dumps data
  end.

Definition cache_set (key : string) (v : value) : M unit :=
  modify (fun st => set_cache (<[key := v]> (_cache st)) st).

(** [_read_data] (lines 52-78): the cached value if there is one; else
    a GET, whose body is decoded, or kept as text when it is not JSON,
    and cached; [None] on 404, on any other status and on an
    exception. *)
Definition _read_data (key : string) : M value :=
  hit ← gets (fun st => _cache st !! key);
  match hit with
  | Some v => mret v
  | None =>
      try_except
        ('(status, text) ← session_get key;
         if (status =? 404)%nat then mret PNone
         else if (status =? 200)%nat then
           let data := default (PStr text) (json_loads text) in
           cache_set key data;;
           mret data
         else mret PNone)
        (fun _ => mret PNone)
  end.

(** [_write_data] (lines 80-101): [data] is rebound to its JSON text
    before the POST, and it is this rebound [data] that line 94 puts in
    the cache. *)
Definition _write_data (key : string) (data : value) : M bool :=
  try_except
    (let data := payload data in
     status ← session_post key data;
     if (status =? 200)%nat then
       cache_set key (PStr data);;
       mret true
     else mret false)
    (fun _ => mret false).

(** [initialize] (lines 135-164) *)
Definition initialize : M bool :=
  try_except
    (started ← gets _initialized;
     if started : bool then mret true else
     guilds ← _read_data "guilds";
     created ← match guilds with
               | PNone => _write_data "guilds" (PList [])
               | _ => mret true
               end;
     if negb created then mret false else
     guilds ← _read_data "guilds";
     match guilds with
     | PNone => mret false
     | _ => modify (set_initialized true);; mret true
     end)
    (fun _ => mret false).

(** [transaction] (lines 190-192) with [DatabaseTransaction.__init__]
    (lines 13-18): a new lock for each transaction, no buffered
    change. *)
Definition transaction (guild_id : Z) (namespace : string)
  : M DatabaseTransaction :=
  l ← new_lock;
  mret (mkTransaction guild_id namespace l []).

Definition guild_key (guild_id : value) : string :=
  "guild:" ++ str_ guild_id.

(** [get_guild_data] (lines 207-210). A truthy result is the cached
    object itself; the empty document is a new one. *)
Definition get_guild_data (guild_id : value) : M value :=
  data ← _read_data (guild_key guild_id);
  mret (Py.or_ data (PDict [])).

(** [get_section] (lines 212-215) *)
Definition get_section (guild_id : value) (section : string) : M value :=
  data ← get_guild_data guild_id;
  lift (Py.get data section (PDict [])).

(** [update_section] (lines 217-222). [guild_data[section] = data]
    assigns into the object [get_guild_data] returned: when that is the cached document, the
    cache shows the assignment at once, whatever the write does. *)
Definition update_section (guild_id : value) (section : string)
  (data : value) : M bool :=
  let key := guild_key guild_id in
  guild_data ← get_guild_data guild_id;
  guild_data' ← lift (Py.setitem guild_data section data);
  (if Py.truthy guild_data then cache_set key guild_data' else mret tt);;
  _write_data key guild_data'.

(** [get_user_xp] (lines 224-227) *)
Definition get_user_xp (guild_id : value) (user_id : string) : M value :=
  data ← get_section guild_id "xp_users";
  lift (Py.get data user_id PNone).

(** A section object that is truthy lives inside the cached document:
    a change made to it in place is a change of the cached document. *)
Definition touch_section (key section : string) (data : value) : M unit :=
  modify (fun st =>
    set_cache (alter (fun doc => match Py.setitem doc section data with
                                 | Ok doc' => doc'
                                 | Raise _ => doc
                                 end) key (_cache st)) st).

(** [update_user_xp] (lines 229-233) *)
Definition update_user_xp (guild_id : value) (user_id : string)
  (xp_data : value) : M bool :=
  held ← get_section guild_id "xp_users";
  let data := Py.or_ held (PDict []) in
  data' ← lift (Py.setitem data user_id xp_data);
  (if Py.truthy held
   then touch_section (guild_key guild_id) "xp_users" data'
   else mret tt);;
  update_section guild_id "xp_users" data'.

(** [add_log] (lines 239-253) *)
Definition add_log (guild_id : value) (log_data : list (string * value))
  : M bool :=
  held ← get_section guild_id "logs";
  let data := Py.or_ held (PList []) in
  now ← utcnow;
  data' ← lift (Py.append data
                  (PDict (Py.dict_set log_data "timestamp"
                            (PStr (isoformat now)))));
  (if Py.truthy held
   then touch_section (guild_key guild_id) "logs" data'
   else mret tt);;
  let data'' :=
    match data' with
    | PList l => if (1000 <? length l)%nat then PList (Py.last_n 1000 l) else data'
    | _ => data'
    end in
  update_section guild_id "logs" data''.

(** The three tests of [cleanup_old_data]'s list comprehensions
    (lines 268, 275-276 and 283-284). *)
Definition parse_datetime (v : value) : res Z :=
  match v with
  | PStr s =>
      match fromisoformat s with
      | Some t => Ok t
      | None => Raise ValueError
      end
  | _ => Raise TypeError
  end.

Definition keep_log (cutoff : Z) (log : value) : res bool :=
  stamp ← Py.getitem log "timestamp";
  t ← parse_datetime stamp;
  Ok (cutoff <? t)%Z.

Definition keep_action (now : Z) (action : value) : res bool :=
  expires ← Py.get action "expires" PNone;
  if negb (Py.truthy expires) then Ok true else
  stamp ← Py.getitem action "expires";
  t ← parse_datetime stamp;
  Ok (now <? t)%Z.

Definition keep_whisper (cutoff : Z) (w : value) : res bool :=
  closed ← Py.get w "closed_at" PNone;
  if negb (Py.truthy closed) then Ok true else
  stamp ← Py.getitem w "closed_at";
  t ← parse_datetime stamp;
  Ok (cutoff <? t)%Z.

(** [if section in data: data[section] = [x for x in data[section] if keep(x)]] *)
Definition clean_section (section : string) (keep : value -> res bool)
  (data : value) : res value :=
  present ← Py.contains section data;
  if present : bool then
    entries ← Py.getitem data section;
    xs ← Py.iter entries;
    kept ← filter_res keep xs;
    Py.setitem data section (PList kept)
  else Ok data.

(** One assignment into the document of the loop: into the cache too
    when the document is the cached object. *)
Definition assign (shared : bool) (key : string) (r : res value) : M value :=
  data ← lift r;
  (if shared then cache_set key data else mret tt);;
  mret data.

(** The body of [cleanup_old_data]'s loop (lines 262-287). *)
Definition cleanup_guild (cutoff : Z) (guild_id : value) : M unit :=
  let key := guild_key guild_id in
  data ← get_guild_data guild_id;
  let shared := Py.truthy data in
  data ← assign shared key (clean_section "logs" (keep_log cutoff) data);
  now ← utcnow;
  data ← assign shared key (clean_section "mod_actions" (keep_action now) data);
  data ← assign shared key (clean_section "whispers" (keep_whisper cutoff) data);
  _write_data key data;;
  mret tt.

(** [cleanup_old_data] (lines 255-292) *)
Definition cleanup_old_data (days : Z) : M bool :=
  try_except
    (now ← utcnow;
     cutoff ← lift (minus_days now days);
     held ← _read_data "guilds";
     guilds ← lift (Py.iter (Py.or_ held (PList [])));
     for_each guilds (cleanup_guild cutoff);;
     mret true)
    (fun _ => mret false).

(** The document of a guild met for the first time (lines 366-374 and
    439-447). *)
Definition new_guild_data (guild_id : Z) (guild_name : string) (now : Z)
  : value :=
  PDict [("id", PStr (pretty guild_id));
         ("name", PStr guild_name);
         ("joined_at", PStr (isoformat now));
         ("whisper_config", PDict [("enabled", PBool false)]);
         ("logs", PDict [("enabled", PBool false)]);
         ("xp_settings", PDict [("enabled", PBool true);
                                ("rate", PInt 15);
                                ("cooldown", PInt 60)]);
         ("roles", PDict [("color_roles", PList []);
                          ("level_roles", PDict [])])].

(** The body of [sync_guilds]'s loop, inside its own [try]
    (lines 363-375). *)
Definition sync_guild (guild : discord.Guild) : M unit :=
  guild_data ← get_guild_data (PInt (discord.id guild));
  if negb (Py.truthy guild_data) then
    now ← utcnow;
    _write_data (guild_key (PInt (discord.id guild)))
      (new_guild_data (discord.id guild) (discord.name guild) now);;
    mret tt
  else mret tt.

(** The loop, with its three local variables. *)
Fixpoint sync_loop (bot_guilds : list discord.Guild) (success failed : Z)
  (guilds : list value) : M (Z * Z * list value) :=
  match bot_guilds with
  | [] => mret (success, failed, guilds)
  | guild :: rest =>
      done ← try_except (sync_guild guild;; mret true) (fun _ => mret false);
      if done : bool
      then sync_loop rest (success + 1)%Z failed
             (guilds ++ [PStr (pretty (discord.id guild))])
      else sync_loop rest success (failed + 1)%Z guilds
  end.

Definition sync_report (success failed : Z) : value :=
  PDict [("success", PInt success); ("failed", PInt failed)].

(** [sync_guilds] (lines 352-396) *)
Definition sync_guilds (bot_guilds : list discord.Guild) : M value :=
  try_except
    ('(success, failed, guilds) ← sync_loop bot_guilds 0%Z 0%Z [];
     _write_data "guilds" (PList guilds);;
     mret (sync_report success failed))
    (fun _ => mret (sync_report 0 (Z.of_nat (length bot_guilds)))).

(** [ensure_guild_exists] (lines 431-458). [guilds.append] changes the
    list [_read_data] returned, which is the cached one when it is
    truthy. *)
Definition ensure_guild_exists (guild_id : Z) (guild_name : string)
  : M bool :=
  try_except
    (held ← _read_data "guilds";
     let guilds := Py.or_ held (PList []) in
     guild_data ← get_guild_data (PInt guild_id);
     (if negb (Py.truthy guild_data) then
        now ← utcnow;
        _write_data (guild_key (PInt guild_id))
          (new_guild_data guild_id guild_name now);;
        mret tt
      else mret tt);;
     listed ← lift (Py.contains (pretty guild_id) guilds);
     (if negb listed then
        guilds' ← lift (Py.append guilds (PStr (pretty guild_id)));
        (if Py.truthy held then cache_set "guilds" guilds' else mret tt);;
        _write_data "guilds" guilds';;
        mret tt
      else mret tt);;
     mret true)
    (fun _ => mret false).

End DatabaseManager.

(** ** class DatabaseTransaction: entering and leaving the scope *)
Section DatabaseTransaction.
Context `{PyRuntime}.

(** [__aenter__] (lines 20-22), [await self._lock.acquire()]: [None]
    when the lock is held and the coroutine has to wait. *)
Definition __aenter__ (self : DatabaseTransaction) (st : state)
  : option state :=
  match locks st !! _lock self with
  | Some false => Some (set_locks (<[_lock self := true]> (locks st)) st)
  | _ => None
  end.

(** [__aexit__] (lines 24-31); [exc_type] is [None] on a clean exit of
    the body. *)
Definition __aexit__ (self : DatabaseTransaction) (exc_type : option exn)
  : M unit :=
  try_finally
    (match exc_type with
     | None =>
         for_each (changes self)
           (fun '(key, value) => _write_data key value;; mret tt)
     | Some _ => mret tt
     end)
    (release (_lock self)).

End DatabaseTransaction.

(** ** What the store holds, as a reader with an empty cache sees it *)
Section Observations.
Context `{PyRuntime}.

(** The value [_read_data] makes of a stored text. *)
Definition decode (text : string) : value :=
  default (PStr text) (json_loads text).

Definition stored (st : state) (key : string) : option value :=
  decode <$> store st !! key.

(** A GuildDocument exists for the id. *)
Definition has_document (st : state) (id : string) : Prop :=
  is_Some (store st !! ("guild:" ++ id)).

(** The id appears in the GuildIndex stored under ["guilds"]. *)
Definition listed (st : state) (id : string) : Prop :=
  exists l, stored st "guilds" = Some (PList l) /\ In (PStr id) l.

Definition index_invariant (st : state) : Prop :=
  forall id, has_document st id -> listed st id.

(** The state after one more request has met the network. *)
Definition sent (r : request) (st : state) : state :=
  set_net (tail (net st)) (set_trace (trace st ++ [r]) st).

Definition fate (st : state) : outcome := hd Served (net st).

(** The state after a POST the service accepted. *)
Definition wrote (key body : string) (st : state) : state :=
  set_cache (<[key := PStr body]> (_cache st))
    (set_store (<[key := body]> (store st)) (sent (POST key body) st)).

(** The state after a GET the service answered with a body. *)
Definition fetched (key text : string) (st : state) : state :=
  set_cache (<[key := decode text]> (_cache st)) (sent (GET key) st).

(** Requests that create or replace a guild document. *)
Definition is_document_post (r : request) : bool :=
  match r with
  | POST key _ => String.prefix "guild:" key
  | GET _ => false
  end.

Definition document_posts (t : list request) : nat :=
  length (filter (fun r => is_document_post r = true) t).

(** One turn of the commit loop of [__aexit__], and the request it
    sends. *)
Definition commit_one (change : string * value) : M unit :=
  let '(key, value) := change in _write_data key value;; mret tt.

Definition post_of (change : string * value) : request :=
  POST change.1 (payload change.2).

(** On a healthy network the loop is a chain of accepted writes. *)
Definition committed (buffer : list (string * value)) (st : state) : state :=
  fold_left (fun s change => wrote change.1 (payload change.2) s) buffer st.

(** What [_read_data] answers on a healthy network, and the state it
    leaves. *)
Definition visible (st : state) (key : string) : value :=
  match _cache st !! key with
  | Some v => v
  | None => default PNone (stored st key)
  end.

Definition after_read (key : string) (st : state) : state :=
  match _cache st !! key, store st !! key with
  | Some _, _ => st
  | None, Some text => fetched key text st
  | None, None => sent (GET key) st
  end.

(** The state after an assignment into a document that may be the
    cached object. *)
Definition assigned (shared : bool) (key : string) (doc : value)
  (st : state) : state :=
  if shared then set_cache (<[key := doc]> (_cache st)) st else st.

(** The xp record of a user in a document. *)
Definition xp_of (doc : list (string * value)) (user_id : string)
  : option value :=
  match Py.dict_get doc "xp_users" with
  | Some (PDict d) => Py.dict_get d user_id
  | _ => None
  end.

(** The index entry of a guild, and whether [sync_guilds] finds a
    document for it. *)
Definition id_of (guild : discord.Guild) : value :=
  PStr (pretty (discord.id guild)).

Definition documented (st : state) (guild : discord.Guild) : bool :=
  Py.truthy (visible st (guild_key (PInt (discord.id guild)))).

Definition undocumented (st : state) (bot_guilds : list discord.Guild)
  : list discord.Guild :=
  filter (fun guild => documented st guild = false) bot_guilds.

(** The time an entry carries under a field, when it is a mapping with
    a readable ISO string there. *)
Definition stamp (field : string) (entry : value) : option Z :=
  match entry with
  | PDict f =>
      match Py.dict_get f field with
      | Some (PStr s) => fromisoformat s
      | _ => None
      end
  | _ => None
  end.


(** An entry of [mod_actions] or [whispers]: a mapping whose field is
    missing or falsy, or a readable time. *)
Definition undated (field : string) (entry : value) : bool :=
  match entry with
  | PDict f => negb (Py.truthy (default PNone (Py.dict_get f field)))
  | _ => false
  end.


(** The entry's time is after [limit]. *)
Definition later_than (limit : Z) (field : string) (entry : value) : bool :=
  match stamp field entry with
  | Some t => (limit <? t)%Z
  | None => false
  end.

(** The entry has no time under the field, or one after [limit]. *)
Definition live (limit : Z) (field : string) (entry : value) : bool :=
  undated field entry || later_than limit field entry.


Definition map_section (section : string) (f : list value -> list value)
  (doc : list (string * value)) : list (string * value) :=
  match Py.dict_get doc section with
  | Some (PList l) => Py.dict_set doc section (PList (f l))
  | _ => doc
  end.

(** The document the retention rules leave, written from their
    wording: [logs] entries newer than the cutoff, [mod_actions] entries
    with no [expires] or one that has not passed, [whispers] entries
    with no [closed_at] or one after the cutoff. *)
Definition cleaned (cutoff now : Z) (doc : list (string * value))
  : list (string * value) :=
  map_section "whispers" (List.filter (live cutoff "closed_at"))
    (map_section "mod_actions" (List.filter (live now "expires"))
       (map_section "logs" (List.filter (later_than cutoff "timestamp")) doc)).



End Observations.

(** ** Concrete states for the runs below

    A manager just constructed at 2024-03-01T00:00:00, nothing stored;
    and a store holding an index and documents, with an empty cache. *)
Definition march_first : Z := 63844848000000000.

Definition boot : state := mkState ∅ false [] ∅ [] [] march_first.

Definition archive (index : list value) (docs : list (string * value)) : state :=
  mkState ∅ false []
    (<["guilds" := CPython.dumps (PList index)]>
       (list_to_map
          (map (fun kv => ("guild:" ++ kv.1, CPython.dumps kv.2)) docs)))
    [] [] march_first.

Definition run_state {A} (m : M A) (st : state) : state := (m st).2.

Definition run_result {A} (m : M A) (st : state) : res A := (m st).1.


Definition old_log : value :=
  PDict [("event", PStr "join"); ("timestamp", PStr "2024-01-21T00:00:00")].

Definition new_log : value :=
  PDict [("event", PStr "leave"); ("timestamp", PStr "2024-02-29T00:00:00")].

Definition xp_document : value :=
  PDict [("name", PStr "g");
         ("xp_users", PDict [("u1", PDict [("xp", PInt 10)])])].

(** ** class DatabaseManager: the other methods *)
Section OtherMethods.
Context `{PyRuntime}.

(** [close] (lines 166-174): the session apart, the cache is emptied
    and the manager is no longer initialized. *)
Definition close : M unit :=
  try_except
    (modify (set_cache ∅);;
     modify (set_initialized false))
    (fun _ => mret tt).

(** [check_connection] (lines 176-188) *)
Definition check_connection : M bool :=
  try_except
    (started ← gets _initialized;
     if negb started then mret false else
     guilds ← _read_data "guilds";
     mret (match guilds with PNone => false | _ => true end))
    (fun _ => mret false).

(** [get_all_xp] (lines 235-237) *)
Definition get_all_xp (guild_id : value) : M value :=
  held ← get_section guild_id "xp_users";
  mret (Py.or_ held (PDict [])).

(** The body of [optimize]'s loop (lines 303-305). *)
Definition optimize_guild (guild_id : value) : M unit :=
  data ← get_guild_data guild_id;
  if Py.truthy data
  then _write_data (guild_key guild_id) data;; mret tt
  else mret tt.

(** [optimize] (lines 294-310) *)
Definition optimize : M bool :=
  try_except
    (modify (set_cache ∅);;
     held ← _read_data "guilds";
     guilds ← lift (Py.iter (Py.or_ held (PList [])));
     for_each guilds optimize_guild;;
     mret true)
    (fun _ => mret false).

(** [x + 1]: an integer, a boolean taken as 0 or 1; anything else is a
    [TypeError]. *)
Definition add_one (x : value) : res value :=
  match x with
  | PInt n => Ok (PInt (n + 1))
  | PBool b => Ok (PInt (if b then 2 else 1))
  | _ => Raise TypeError
  end.

Definition stats_key (bot_id : Z) : string := "bot_stats:" ++ pretty bot_id.

(** [increment_stat] (lines 460-468). [stats] is the cached object when
    it is truthy, and the assignment shows in the cache at once. *)
Definition increment_stat (bot_id : Z) (stat_name : string) : M bool :=
  try_except
    (held ← _read_data (stats_key bot_id);
     let stats := Py.or_ held (PDict []) in
     count ← lift (Py.get stats stat_name (PInt 0));
     count' ← lift (add_one count);
     stats' ← lift (Py.setitem stats stat_name count');
     (if Py.truthy held then cache_set (stats_key bot_id) stats' else mret tt);;
     _write_data (stats_key bot_id) stats')
    (fun _ => mret false).


(** [get_defaults] (lines 398-429): the table, and [defaults.get]. *)
Definition defaults : list (string * value) :=
  [("whisper_config",
    PDict [("enabled", PBool false); ("channel_id", PNone);
           ("staff_role", PNone); ("anonymous_allowed", PBool true)]);
   ("logs",
    PDict [("enabled", PBool false); ("log_channel", PNone);
           ("log_types",
            PDict [("member", PList [PStr "join"; PStr "leave"]);
                   ("server", PList [PStr "message_delete";
                                     PStr "message_edit"]);
                   ("mod", PList [PStr "warn"; PStr "kick"; PStr "ban";
                                  PStr "timeout"])])]);
   ("xp_settings",
    PDict [("enabled", PBool true); ("rate", PInt 15); ("cooldown", PInt 60);
           ("level_roles", PDict [])]);
   ("roles",
    PDict [("color_roles", PList []); ("level_roles", PDict []);
           ("staff_role", PNone); ("muted_role", PNone)])].

Definition get_defaults (section : string) : value :=
  default PNone (Py.dict_get defaults section).

End OtherMethods.

(** ** The registry of operation locks

    [_operation_locks] maps an operation name to its lock; it is the one
    attribute of the manager that [state] does not carry. *)
Record manager : Type := mkManager {
  process : state;
  _operation_locks : gmap string nat
}.

(** [await lock.acquire()]: [None] when the caller has to wait. *)
Definition acquire (l : nat) (st : state) : option state :=
  match locks st !! l with
  | Some false => Some (set_locks (<[l := true]> (locks st)) st)
  | _ => None
  end.

(** [safe_operation] (lines 194-205): [func] is the call of the
    operation on its arguments; [None] when the lock is held. *)
Definition safe_operation (operation_name : string) (func : M value)
  (self : manager) : option (res value * manager) :=
  let '(l, st, registry) :=
    match _operation_locks self !! operation_name with
    | Some l => (l, process self, _operation_locks self)
    | None =>
        (length (locks (process self)),
         (new_lock (process self)).2,
         <[operation_name := length (locks (process self))]>
           (_operation_locks self))
    end in
  match acquire l st with
  | None => None
  | Some st1 =>
      let '(r, st2) :=
        try_finally (try_except func (fun _ => mret PNone)) (release l) st1 in
      Some (r, mkManager st2 registry)
  end.

(** Every registered lock is free: no operation is running. *)
Definition registry_free (self : manager) : Prop :=
  forall name l,
    _operation_locks self !! name = Some l ->
    locks (process self) !! l = Some false.

(** An operation that leaves the locks it finds as they are. *)
Definition keeps_locks (func : M value) : Prop :=
  forall st r st' i b,
    func st = (r, st') -> locks st !! i = Some b -> locks st' !! i = Some b.

(** What [safe_operation] returns for an outcome of [func]. *)
Definition neutral (r : res value) : value :=
  match r with
  | Ok v => v
  | Raise _ => PNone
  end.

(** The document of the guild is in the cache, and truthy. *)
Definition cached_document `{PyRuntime} (st : state) (guild : discord.Guild)
  : Prop :=
  exists v, _cache st !! guild_key (PInt (discord.id guild)) = Some v /\
            Py.truthy v = true.

(** What [optimize] leaves in the store for a text it finds there: the
    text [_write_data] sends for the decoded value when that is truthy. *)
Definition rewritten `{PyRuntime} (text : option string) : option string :=
  match text with
  | Some t =>
      if Py.truthy (decode t) then Some (payload (decode t)) else Some t
  | None => None
  end.

(** The cache and the store agree on a key in the way a visit of
    [optimize] leaves them: a truthy cached value is the stored text. *)
Definition settled (st : state) (key : string) : Prop :=
  match _cache st !! key with
  | Some v =>
      Py.truthy v = true -> exists p, v = PStr p /\ store st !! key = Some p
  | None => store st !! key = None
  end.

(** * Theorems *)

Open Scope list_scope.

Section Transport.
Context `{PyRuntime}.

Lemma bind_eq {A B} (m : M A) (f : A -> M B) (st : state) :
  (m ≫= f) st =
    match m st with
    | (Ok a, st') => f a st'
    | (Raise e, st') => (Raise e, st')
    end.
Proof. reflexivity. Qed.

Lemma lift_eq {A} (r : res A) (st : state) : lift r st = (r, st).
Proof. reflexivity. Qed.

Lemma ret_eq {A} (a : A) (st : state) : (mret a : M A) st = (Ok a, st).
Proof. reflexivity. Qed.

Lemma cache_set_eq (key : string) (v : value) (st : state) :
  cache_set key v st = (Ok tt, set_cache (<[key := v]> (_cache st)) st).
Proof. reflexivity. Qed.

Lemma send_eq (r : request) (st : state) :
  send r st = (Ok (fate st), sent r st).
Proof.
  unfold send, fate, sent. destruct st as [c i l s n t k]; simpl.
  destruct n; reflexivity.
Qed.

Lemma read_hit (key : string) (v : value) (st : state) :
  _cache st !! key = Some v -> _read_data key st = (Ok v, st).
Proof.
  intros Hhit. unfold _read_data, mbind, M_bind, gets. rewrite Hhit.
  reflexivity.
Qed.

Lemma read_miss (key : string) (st : state) :
  _cache st !! key = None ->
  _read_data key st =
    match fate st, store st !! key with
    | Served, Some text => (Ok (decode text), fetched key text st)
    | _, _ => (Ok PNone, sent (GET key) st)
    end.
Proof.
  intros Hmiss. unfold _read_data, mbind, M_bind, gets. rewrite Hmiss.
  unfold try_except, session_get, mbind, M_bind. rewrite send_eq.
  destruct (fate st); try reflexivity.
  unfold gets. simpl.
  destruct (store st !! key) as [text|]; reflexivity.
Qed.

Lemma write_eq (key : string) (data : value) (st : state) :
  _write_data key data st =
    match fate st with
    | Served => (Ok true, wrote key (payload data) st)
    | _ => (Ok false, sent (POST key (payload data)) st)
    end.
Proof.
  unfold _write_data, try_except, session_post, mbind, M_bind.
  rewrite send_eq. destruct (fate st); reflexivity.
Qed.

Lemma write_healthy (key : string) (data : value) (st : state) :
  net st = [] ->
  _write_data key data st = (Ok true, wrote key (payload data) st).
Proof. intros Hnet. rewrite write_eq. unfold fate. rewrite Hnet. reflexivity. Qed.

(** A write that reports success leaves the text it sent in the cache,
    and the next read of the key answers from there: no request is
    sent, whatever the network would do. *)
Lemma read_after_write (key : string) (data : value) (st st1 : state)
  (n : list outcome) :
  _write_data key data st = (Ok true, st1) ->
  _read_data key (set_net n st1) = (Ok (PStr (payload data)), set_net n st1).
Proof.
  rewrite write_eq. destruct (fate st); intros Hw; inversion Hw; subst.
  apply read_hit. simpl. apply lookup_insert_eq.
Qed.

(** C1 (the code departs from the claim). After a successful
    [_write_data(k, v)] with [v] not a string, [_read_data(k)] is
    served from the cache without touching the store, but what it
    returns is the JSON text of [v], a string, and not [v]. *)
Theorem write_then_read_returns_text (key : string) (v : value)
  (st st1 : state) (n : list outcome) :
  _write_data key v st = (Ok true, st1) ->
  (forall s, v <> PStr s) ->
  exists r,
    _read_data key (set_net n st1) = (Ok r, set_net n st1) /\
    r = PStr (json_dumps v) /\ r <> v.
Proof.
  intros Hw Hv. exists (PStr (payload v)). split; [|split].
  - eapply read_after_write; eauto.
  - destruct v; try reflexivity. exfalso. eapply Hv; reflexivity.
  - apply not_eq_sym, Hv.
Qed.

End Transport.

Section Transactions.
Context `{PyRuntime}.

(** The commit loop sends one POST per buffered change, in the order of
    the buffer, whatever the network does with them, and raises
    nothing. *)
Lemma commit_trace (buffer : list (string * value)) (st : state) :
  exists st',
    for_each buffer commit_one st = (Ok tt, st') /\
    trace st' = trace st ++ map post_of buffer /\
    locks st' = locks st.
Proof.
  revert st. induction buffer as [|[key v] buffer IH]; intros st.
  - exists st. simpl. rewrite app_nil_r. auto.
  - simpl. unfold mbind at 1, M_bind at 1. unfold commit_one at 1.
    unfold mbind at 1, M_bind at 1. rewrite write_eq.
    destruct (fate st); cbn;
      match goal with
      | |- context [for_each buffer _ ?s] =>
          destruct (IH s) as (st' & Hrun & Htrace & Hlocks)
      end;
      exists st'; (split; [exact Hrun|]); rewrite Htrace, Hlocks; simpl;
      rewrite <- app_assoc; auto.
Qed.

Lemma wrote_net key body st : net st = [] -> net (wrote key body st) = [].
Proof. intros Hnet. simpl. rewrite Hnet. reflexivity. Qed.

Lemma commit_healthy (buffer : list (string * value)) (st : state) :
  net st = [] ->
  for_each buffer commit_one st = (Ok tt, committed buffer st).
Proof.
  revert st. induction buffer as [|[key v] buffer IH]; intros st Hnet.
  - reflexivity.
  - simpl. unfold mbind at 1, M_bind at 1. unfold commit_one at 1.
    unfold mbind at 1, M_bind at 1. rewrite write_healthy by assumption.
    cbn. apply IH. apply wrote_net, Hnet.
Qed.

Lemma committed_cache_other (buffer : list (string * value)) (st : state)
  (key : string) :
  ~ In key (map fst buffer) ->
  _cache (committed buffer st) !! key = _cache st !! key.
Proof.
  revert st. induction buffer as [|[k v] buffer IH]; intros st Hout.
  - reflexivity.
  - simpl in *. rewrite IH by tauto. simpl.
    apply lookup_insert_ne. tauto.
Qed.

Lemma committed_cache (buffer : list (string * value)) (st : state)
  (key : string) (v : value) :
  NoDup (map fst buffer) -> In (key, v) buffer ->
  _cache (committed buffer st) !! key = Some (PStr (payload v)).
Proof.
  revert st. induction buffer as [|[k w] buffer IH]; intros st Hnd Hin.
  - destruct Hin.
  - simpl in *. apply NoDup_cons in Hnd as [Hfresh Hnd].
    destruct Hin as [Heq|Hin].
    + inversion Heq; subst. rewrite committed_cache_other.
      * simpl. apply lookup_insert_eq.
      * intros Hin. apply Hfresh. apply list_elem_of_In. exact Hin.
    + apply IH; assumption.
Qed.

Lemma committed_locks (buffer : list (string * value)) (st : state) :
  locks (committed buffer st) = locks st.
Proof.
  revert st. induction buffer as [|[k w] buffer IH]; intros st.
  - reflexivity.
  - simpl. rewrite IH. reflexivity.
Qed.

(** A body that raised: the scope releases its lock and does nothing
    else; no request is sent, the cache and the store are as before. *)
Lemma aexit_abort (self : DatabaseTransaction) (e : exn) (st : state) :
  locks st !! _lock self = Some true ->
  __aexit__ self (Some e) st =
    (Ok tt, set_locks (<[_lock self := false]> (locks st)) st).
Proof.
  intros Hheld. unfold __aexit__, try_finally, release. simpl.
  rewrite Hheld. reflexivity.
Qed.

(** A clean exit sends exactly one POST per buffered change, in
    insertion order. *)
Lemma aexit_commit_trace (self : DatabaseTransaction) (st : state) :
  exists r st',
    __aexit__ self None st = (r, st') /\
    trace st' = trace st ++ map post_of (changes self).
Proof.
  unfold __aexit__, try_finally.
  destruct (commit_trace (changes self) st) as (st1 & Hrun & Htrace & Hlocks).
  change (for_each (changes self) _ st) with (for_each (changes self) commit_one st).
  rewrite Hrun. unfold release. rewrite Hlocks.
  destruct (locks st !! _lock self) as [[|]|]; eauto.
Qed.

(** C2 (the code departs from the claim). A clean exit on a healthy
    network sends the N buffered changes as N POSTs in insertion order,
    but a later read of a buffered key returns the text that was sent:
    for a value that is not a string this is its JSON text, not the
    value. *)
Theorem commit_then_read_returns_text (self : DatabaseTransaction)
  (st : state) :
  net st = [] ->
  locks st !! _lock self = Some true ->
  NoDup (map fst (changes self)) ->
  exists st',
    __aexit__ self None st = (Ok tt, st') /\
    trace st' = trace st ++ map post_of (changes self) /\
    forall key v, In (key, v) (changes self) ->
      _read_data key st' = (Ok (PStr (payload v)), st') /\
      ((forall s, v <> PStr s) -> PStr (payload v) <> v).
Proof.
  intros Hnet Hheld Hnd.
  destruct (commit_trace (changes self) st) as (st1 & Hrun & Htrace & Hlocks).
  rewrite commit_healthy in Hrun by assumption. inversion Hrun; subst st1.
  eexists. split; [|split].
  - unfold __aexit__, try_finally.
    change (for_each (changes self) _ st) with (for_each (changes self) commit_one st).
    rewrite commit_healthy by assumption. unfold release.
    rewrite committed_locks, Hheld. reflexivity.
  - simpl. exact Htrace.
  - intros key v Hin. split.
    + apply read_hit. simpl. apply committed_cache; assumption.
    + intros Hv Heq. eapply Hv. symmetry. exact Heq.
Qed.

(** C3 (the code departs from the claim). [transaction] gives every
    transaction a lock of its own: two transactions of one scope hold
    different locks, the second enters while the first is still inside
    its scope, and both locks are held at once. *)
Theorem same_scope_transactions_overlap (guild_id : Z) (namespace : string)
  (st : state) :
  exists t1 t2 s1 s2 s3 s4,
    transaction guild_id namespace st = (Ok t1, s1) /\
    transaction guild_id namespace s1 = (Ok t2, s2) /\
    _lock t1 <> _lock t2 /\
    __aenter__ t1 s2 = Some s3 /\
    __aenter__ t2 s3 = Some s4 /\
    locks s4 !! _lock t1 = Some true /\
    locks s4 !! _lock t2 = Some true.
Proof.
  unfold transaction, new_lock, mbind, M_bind, mret, M_ret, __aenter__.
  do 6 eexists. simpl.
  split; [reflexivity|]. split; [reflexivity|]. simpl.
  assert (Hlen : forall (l : list bool), length (l ++ [false]) = S (length l)).
  { intros l. rewrite length_app. simpl. lia. }
  assert (H1 : ((locks st ++ [false]) ++ [false]) !! length (locks st) = Some false).
  { rewrite lookup_app_l by (rewrite Hlen; lia).
    rewrite lookup_app_r by lia. rewrite Nat.sub_diag. reflexivity. }
  assert (H2 : ((locks st ++ [false]) ++ [false]) !! length (locks st ++ [false])
               = Some false).
  { rewrite lookup_app_r by lia. rewrite Nat.sub_diag. reflexivity. }
  split; [rewrite Hlen; lia|].
  rewrite H1. split; [reflexivity|]. simpl.
  rewrite list_lookup_insert_ne by (rewrite Hlen; lia).
  rewrite H2. split; [reflexivity|]. simpl.
  split.
  - rewrite list_lookup_insert_ne by (rewrite Hlen; lia).
    apply list_lookup_insert_eq. rewrite !Hlen. lia.
  - apply list_lookup_insert_eq. rewrite length_insert, !Hlen. lia.
Qed.

End Transactions.

Section Documents.
Context `{PyRuntime}.

Lemma read_healthy (key : string) (st : state) :
  net st = [] ->
  _read_data key st = (Ok (visible st key), after_read key st).
Proof.
  intros Hnet. unfold visible, after_read, stored.
  destruct (_cache st !! key) as [v|] eqn:Hc.
  - apply read_hit, Hc.
  - rewrite read_miss by assumption. unfold fate. rewrite Hnet. simpl.
    destruct (store st !! key); reflexivity.
Qed.

Lemma after_read_net (key : string) (st : state) :
  net st = [] -> net (after_read key st) = [].
Proof.
  intros Hnet. unfold after_read.
  destruct (_cache st !! key), (store st !! key); simpl; rewrite ?Hnet; auto.
Qed.

Lemma after_read_store (key : string) (st : state) :
  store (after_read key st) = store st.
Proof.
  unfold after_read.
  destruct (_cache st !! key), (store st !! key); reflexivity.
Qed.

Lemma after_read_visible (key key' : string) (st : state) :
  visible (after_read key st) key' = visible st key'.
Proof.
  unfold after_read, visible, stored.
  destruct (_cache st !! key) as [v|] eqn:Hc; [reflexivity|].
  destruct (store st !! key) as [text|] eqn:Hs; simpl; [|reflexivity].
  destruct (decide (key = key')) as [->|Hne].
  - rewrite lookup_insert_eq, Hc, Hs. reflexivity.
  - rewrite lookup_insert_ne by assumption. reflexivity.
Qed.

(** A truthy answer is in the cache after the read: it is the cached
    object that the caller holds. *)
Lemma after_read_cached (key : string) (st : state) :
  Py.truthy (visible st key) = true ->
  _cache (after_read key st) !! key = Some (visible st key).
Proof.
  unfold after_read, visible, stored.
  destruct (_cache st !! key) as [v|] eqn:Hc; [intros _; exact Hc|].
  destruct (store st !! key) as [text|]; simpl.
  - intros _. apply lookup_insert_eq.
  - discriminate.
Qed.

Lemma get_guild_data_healthy (guild_id : value) (st : state) :
  net st = [] ->
  get_guild_data guild_id st =
    (Ok (Py.or_ (visible st (guild_key guild_id)) (PDict [])),
     after_read (guild_key guild_id) st).
Proof.
  intros Hnet. unfold get_guild_data, mbind, M_bind.
  rewrite read_healthy by assumption. reflexivity.
Qed.

Lemma dict_get_set_eq (d : list (string * value)) (k : string) (v : value) :
  Py.dict_get (Py.dict_set d k v) k = Some v.
Proof.
  induction d as [|[k' v'] d IH]; simpl.
  - rewrite String.eqb_refl. reflexivity.
  - destruct (String.eqb k' k) eqn:E; simpl; rewrite E; auto.
Qed.

Lemma dict_get_set_ne (d : list (string * value)) (k k' : string) (v : value) :
  k <> k' -> Py.dict_get (Py.dict_set d k v) k' = Py.dict_get d k'.
Proof.
  intros Hne. induction d as [|[k0 v0] d IH]; simpl.
  - destruct (String.eqb k k') eqn:E; [|reflexivity].
    apply String.eqb_eq in E. contradiction.
  - destruct (String.eqb k0 k) eqn:E; simpl.
    + apply String.eqb_eq in E. subst k0.
      destruct (String.eqb k k') eqn:E'; [|reflexivity].
      apply String.eqb_eq in E'. contradiction.
    + destruct (String.eqb k0 k'); auto.
Qed.


Lemma get_section_healthy (guild_id : value) (section : string) (st : state) :
  net st = [] ->
  get_section guild_id section st =
    (Py.get (Py.or_ (visible st (guild_key guild_id)) (PDict [])) section
       (PDict []),
     after_read (guild_key guild_id) st).
Proof.
  intros Hnet. unfold get_section.
  rewrite bind_eq, get_guild_data_healthy by assumption. reflexivity.
Qed.

Lemma assigned_net shared key doc st : net (assigned shared key doc st) = net st.
Proof. destruct shared; reflexivity. Qed.

Lemma update_section_healthy (guild_id : value) (section : string)
  (data : value) (st : state) :
  net st = [] ->
  update_section guild_id section data st =
    let key := guild_key guild_id in
    let doc := Py.or_ (visible st key) (PDict []) in
    match Py.setitem doc section data with
    | Ok doc' =>
        (Ok true,
         wrote key (payload doc')
           (assigned (Py.truthy doc) key doc' (after_read key st)))
    | Raise e => (Raise e, after_read key st)
    end.
Proof.
  intros Hnet. unfold update_section.
  rewrite bind_eq, get_guild_data_healthy by assumption.
  rewrite bind_eq, lift_eq. cbv zeta.
  destruct (Py.setitem _ section data) as [doc'|e]; [|reflexivity].
  rewrite bind_eq.
  assert (Hnet1 : net (after_read (guild_key guild_id) st) = [])
    by (apply after_read_net, Hnet).
  destruct (Py.truthy _) eqn:Hshared.
  - rewrite cache_set_eq. apply write_healthy. exact Hnet1.
  - rewrite ret_eq. apply write_healthy. exact Hnet1.
Qed.

(** C9. On a healthy store, a successful [update_user_xp] stores a
    document that agrees with the document read before the call on
    every section other than [xp_users] and, inside [xp_users], on
    every user other than [user_id], whose record is the new one. *)
Theorem update_user_xp_frame (guild_id : value) (user_id : string)
  (xp_data : value) (st st' : state) :
  net st = [] ->
  update_user_xp guild_id user_id xp_data st = (Ok true, st') ->
  exists doc doc',
    (get_guild_data guild_id st).1 = Ok (PDict doc) /\
    store st' !! guild_key guild_id = Some (json_dumps (PDict doc')) /\
    (forall section, section <> "xp_users" ->
       Py.dict_get doc' section = Py.dict_get doc section) /\
    (forall other, other <> user_id -> xp_of doc' other = xp_of doc other) /\
    xp_of doc' user_id = Some xp_data.
Proof.
  intros Hnet Hrun. unfold update_user_xp in Hrun.
  rewrite bind_eq, get_section_healthy in Hrun by assumption.
  rewrite get_guild_data_healthy by assumption. simpl.
  set (key := guild_key guild_id) in *.
  set (st1 := after_read key st) in *.
  assert (Hnet1 : net st1 = []) by (apply after_read_net, Hnet).
  destruct (Py.or_ (visible st key) (PDict [])) as [| | | | |doc] eqn:Hdoc;
    try discriminate Hrun.
  simpl in Hrun.
  set (held := default (PDict []) (Py.dict_get doc "xp_users")) in *.
  rewrite bind_eq, lift_eq in Hrun.
  destruct (Py.or_ held (PDict [])) as [| | | | |d] eqn:Hdata;
    try discriminate Hrun.
  simpl in Hrun. rewrite bind_eq in Hrun.
  assert (Hfalsy : forall v, Py.truthy v = false -> Py.or_ v (PDict []) = PDict []).
  { intros v E. unfold Py.or_. rewrite E. reflexivity. }
  assert (Htruthy : forall v, Py.truthy v = true -> Py.or_ v (PDict []) = v).
  { intros v E. unfold Py.or_. rewrite E. reflexivity. }
  destruct (Py.truthy held) eqn:Hheld.
  - (* the section object lives inside the cached document *)
    rewrite Htruthy in Hdata by assumption.
    assert (Hsec : Py.dict_get doc "xp_users" = Some (PDict d)).
    { unfold held in Hdata, Hheld.
      destruct (Py.dict_get doc "xp_users") as [v|]; simpl in *.
      - congruence.
      - inversion Hdata; subst d. discriminate Hheld. }
    assert (Hvis : visible st key = PDict doc /\ Py.truthy (PDict doc) = true).
    { destruct (Py.truthy (visible st key)) eqn:E.
      - rewrite Htruthy in Hdoc by assumption. rewrite <- Hdoc. auto.
      - rewrite Hfalsy in Hdoc by assumption. inversion Hdoc; subst doc.
        discriminate Hsec. }
    destruct Hvis as [Hvis Hdoc_truthy].
    assert (Hcached : _cache st1 !! key = Some (PDict doc)).
    { unfold st1. rewrite <- Hvis. apply after_read_cached.
      rewrite Hvis. exact Hdoc_truthy. }
    set (data' := PDict (Py.dict_set d user_id xp_data)) in *.
    unfold touch_section, modify in Hrun.
    match type of Hrun with
    | context [update_section _ _ _ ?s] => set (st2 := s) in *
    end.
    assert (Hc2 : _cache st2 !! key
                  = Some (PDict (Py.dict_set doc "xp_users" data'))).
    { unfold st2. simpl. rewrite lookup_alter_eq, Hcached. reflexivity. }
    assert (Hnet2 : net st2 = []) by exact Hnet1.
    rewrite update_section_healthy in Hrun by exact Hnet2.
    fold key in Hrun. cbv zeta in Hrun.
    assert (Hv2 : visible st2 key = PDict (Py.dict_set doc "xp_users" data')).
    { unfold visible. rewrite Hc2. reflexivity. }
    assert (Ha2 : after_read key st2 = st2).
    { unfold after_read. rewrite Hc2. reflexivity. }
    rewrite Hv2, Ha2 in Hrun.
    rewrite Htruthy in Hrun by (destruct doc as [|[k v] doc]; simpl;
                                [discriminate Hsec|destruct (String.eqb k _); reflexivity]).
    simpl in Hrun. inversion Hrun; subst st'. clear Hrun.
    exists doc. eexists. split; [reflexivity|]. split.
    { simpl. rewrite lookup_insert_eq. reflexivity. }
    split; [|split].
    + intros section Hne. rewrite !dict_get_set_ne by congruence. reflexivity.
    + intros other Hne. unfold xp_of. rewrite dict_get_set_eq, Hsec.
      unfold data'. apply dict_get_set_ne. congruence.
    + unfold xp_of. rewrite dict_get_set_eq. unfold data'.
      apply dict_get_set_eq.
  - (* a new mapping, known to the caller only *)
    rewrite Hfalsy in Hdata by assumption. inversion Hdata; subst d.
    rewrite ret_eq in Hrun.
    rewrite update_section_healthy in Hrun by exact Hnet1.
    fold key in Hrun. cbv zeta in Hrun.
    unfold st1 in Hrun at 1. rewrite after_read_visible, Hdoc in Hrun.
    simpl in Hrun. inversion Hrun; subst st'. clear Hrun.
    exists doc. eexists. split; [reflexivity|]. split.
    { simpl. rewrite lookup_insert_eq. reflexivity. }
    assert (Hnone : forall other, xp_of doc other = None).
    { intros other. unfold xp_of. unfold held in Hheld.
      destruct (Py.dict_get doc "xp_users") as [[| | | | |d0]|]; try reflexivity.
      simpl in Hheld. destruct d0; [reflexivity|discriminate Hheld]. }
    split; [|split].
    + intros section Hne. apply dict_get_set_ne. congruence.
    + intros other Hne. rewrite Hnone. unfold xp_of.
      rewrite dict_get_set_eq. simpl.
      destruct (String.eqb user_id other) eqn:E; [|reflexivity].
      apply String.eqb_eq in E. congruence.
    + unfold xp_of. rewrite dict_get_set_eq. simpl.
      rewrite String.eqb_refl. reflexivity.
Qed.

End Documents.

Section Logs.
Context `{PyRuntime}.

Lemma update_section_true (guild_id : value) (section : string)
  (data : value) (st st' : state) :
  update_section guild_id section data st = (Ok true, st') ->
  exists doc',
    _cache st' !! guild_key guild_id = Some (PStr (json_dumps (PDict doc'))) /\
    store st' !! guild_key guild_id = Some (json_dumps (PDict doc')) /\
    Py.dict_get doc' section = Some data.
Proof.
  unfold update_section. rewrite bind_eq.
  destruct (get_guild_data guild_id st) as [[doc|e] st0]; [|discriminate].
  rewrite bind_eq, lift_eq.
  destruct doc as [| | | | |d]; try discriminate. simpl.
  rewrite bind_eq.
  match goal with
  | |- context [(if ?b then _ else _) st0] => destruct b
  end; [rewrite cache_set_eq|rewrite ret_eq];
    rewrite write_eq;
    match goal with |- context [fate ?s] => destruct (fate s) end;
    intros Hrun; inversion Hrun; subst st';
    exists (Py.dict_set d section data); simpl;
    rewrite !lookup_insert_eq, dict_get_set_eq; auto.
Qed.

Lemma last_n_length {A} (n : nat) (l : list A) :
  (length (Py.last_n n l) <= n)%nat.
Proof. unfold Py.last_n. rewrite length_drop. lia. Qed.

Lemma add_log_true (guild_id : value) (log_data : list (string * value))
  (st st' : state) :
  add_log guild_id log_data st = (Ok true, st') ->
  exists doc' l,
    _cache st' !! guild_key guild_id = Some (PStr (json_dumps (PDict doc'))) /\
    store st' !! guild_key guild_id = Some (json_dumps (PDict doc')) /\
    Py.dict_get doc' "logs" = Some (PList l) /\
    (length l <= 1000)%nat.
Proof.
  unfold add_log. rewrite bind_eq.
  destruct (get_section guild_id "logs" st) as [[held|e] st0]; [|discriminate].
  rewrite bind_eq. unfold utcnow at 1, gets at 1.
  rewrite bind_eq, lift_eq.
  destruct (Py.or_ held (PList [])) as [| | | |l|]; try discriminate.
  simpl Py.append. cbv iota. rewrite bind_eq.
  match goal with
  | |- context [(if ?b then _ else _) st0] => destruct b
  end; [unfold touch_section, modify|rewrite ret_eq]; cbv zeta;
    intros Hrun; apply update_section_true in Hrun;
    destruct Hrun as (doc' & Hc & Hs & Hlogs);
    exists doc';
    match type of Hlogs with
    | _ = Some (if ?b then _ else _) => destruct b eqn:E
    end; eexists; (split; [exact Hc|]); (split; [exact Hs|]);
    (split; [exact Hlogs|]);
    try apply last_n_length; apply Nat.ltb_ge in E; exact E.
Qed.

(** C5 (the code departs from the claim). An [add_log] that succeeds
    stores at most 1000 entries, but it leaves the JSON text of the
    document in the cache, and the next [add_log] for the guild reads
    that string where it expects a mapping: it raises [AttributeError]
    and appends nothing. *)
Theorem add_log_again_raises (guild_id : value)
  (first second : list (string * value)) (st st1 : state) :
  (forall d, json_dumps (PDict d) <> "") ->
  add_log guild_id first st = (Ok true, st1) ->
  (exists doc l,
     store st1 !! guild_key guild_id = Some (json_dumps (PDict doc)) /\
     Py.dict_get doc "logs" = Some (PList l) /\ (length l <= 1000)%nat) /\
  add_log guild_id second st1 = (Raise AttributeError, st1).
Proof.
  intros Hdumps Hrun. apply add_log_true in Hrun.
  destruct Hrun as (doc & l & Hc & Hs & Hlogs & Hlen). split; [eauto|].
  unfold add_log, get_section, get_guild_data.
  rewrite !bind_eq. rewrite (read_hit _ _ _ Hc). rewrite ret_eq, lift_eq.
  unfold Py.or_. simpl.
  destruct (String.eqb (json_dumps (PDict doc)) "") eqn:E.
  - apply String.eqb_eq in E. destruct (Hdumps _ E).
  - reflexivity.
Qed.

End Logs.

Section Sync.
Context `{PyRuntime}.

Lemma read_total (key : string) (st : state) :
  exists v st', _read_data key st = (Ok v, st').
Proof.
  destruct (_cache st !! key) as [v|] eqn:Hc.
  - rewrite (read_hit _ _ _ Hc). eauto.
  - rewrite read_miss by assumption.
    destruct (fate st), (store st !! key); eauto.
Qed.

Lemma write_total (key : string) (data : value) (st : state) :
  exists b st', _write_data key data st = (Ok b, st').
Proof. rewrite write_eq. destruct (fate st); eauto. Qed.

(** The body of the loop never raises: a transport failure is absorbed
    by [_read_data] and [_write_data]. *)
Lemma sync_guild_total (guild : discord.Guild) (st : state) :
  exists st', sync_guild guild st = (Ok tt, st').
Proof.
  unfold sync_guild, get_guild_data. rewrite !bind_eq.
  destruct (read_total (guild_key (PInt (discord.id guild))) st)
    as (v & st1 & Hread).
  rewrite Hread, ret_eq.
  destruct (negb (Py.truthy (Py.or_ v (PDict [])))).
  - rewrite bind_eq. unfold utcnow, gets. rewrite bind_eq.
    match goal with
    | |- context [_write_data ?k ?d st1] =>
        destruct (write_total k d st1) as (b & st2 & Hwrite); rewrite Hwrite
    end.
    rewrite ret_eq. eauto.
  - rewrite ret_eq. eauto.
Qed.

Lemma sync_loop_total (bot_guilds : list discord.Guild) (success failed : Z)
  (guilds : list value) (st : state) :
  exists st',
    sync_loop bot_guilds success failed guilds st =
      (Ok ((success + Z.of_nat (length bot_guilds))%Z, failed,
           guilds ++ map id_of bot_guilds), st').
Proof.
  revert success guilds st.
  induction bot_guilds as [|guild rest IH]; intros success guilds st.
  - exists st. simpl. rewrite Z.add_0_r, app_nil_r. reflexivity.
  - simpl sync_loop. rewrite bind_eq. unfold try_except. rewrite bind_eq.
    destruct (sync_guild_total guild st) as (st1 & Hbody). rewrite Hbody.
    rewrite ret_eq.
    destruct (IH (success + 1)%Z (guilds ++ [id_of guild]) st1) as (st' & Hrest).
    exists st'. unfold id_of in Hrest at 1. rewrite Hrest.
    rewrite <- app_assoc. simpl length. simpl map.
    replace (success + Z.of_nat (S (length rest)))%Z
      with (success + 1 + Z.of_nat (length rest))%Z by lia.
    reflexivity.
Qed.

Lemma truthy_or (v w : value) :
  Py.truthy w = false -> Py.truthy (Py.or_ v w) = Py.truthy v.
Proof. unfold Py.or_. destruct (Py.truthy v) eqn:E; auto. Qed.

Lemma document_posts_app (t t' : list request) :
  document_posts (t ++ t') = (document_posts t + document_posts t')%nat.
Proof. unfold document_posts. rewrite filter_app, length_app. reflexivity. Qed.

Lemma after_read_posts (key : string) (st : state) :
  document_posts (trace (after_read key st)) = document_posts (trace st).
Proof.
  unfold after_read.
  destruct (_cache st !! key), (store st !! key); simpl trace;
    rewrite ?document_posts_app; try reflexivity;
    change (document_posts [GET key]) with 0%nat; lia.
Qed.

Lemma wrote_visible_ne (key key' body : string) (st : state) :
  key' <> key -> visible (wrote key body st) key' = visible st key'.
Proof.
  intros Hne. unfold visible, stored. simpl.
  rewrite !lookup_insert_ne by congruence. reflexivity.
Qed.

Lemma document_post_one (guild_id : value) (body : string) :
  document_posts [POST (guild_key guild_id) body] = 1%nat.
Proof.
  assert (Hkey : is_document_post (POST (guild_key guild_id) body) = true).
  { unfold guild_key. simpl. destruct (str_ guild_id); reflexivity. }
  unfold document_posts. rewrite filter_cons.
  rewrite decide_True by exact Hkey. reflexivity.
Qed.

Lemma sync_guild_healthy (guild : discord.Guild) (st : state) :
  net st = [] ->
  exists st',
    sync_guild guild st = (Ok tt, st') /\
    net st' = [] /\
    document_posts (trace st') =
      (document_posts (trace st) + if documented st guild then 0 else 1)%nat /\
    (forall key', key' <> guild_key (PInt (discord.id guild)) ->
       visible st' key' = visible st key').
Proof.
  intros Hnet. unfold sync_guild. rewrite bind_eq.
  rewrite get_guild_data_healthy by assumption.
  set (key := guild_key (PInt (discord.id guild))).
  rewrite truthy_or by reflexivity. unfold documented. fold key.
  assert (Hnet1 : net (after_read key st) = []) by (apply after_read_net, Hnet).
  destruct (Py.truthy (visible st key)); cbn [negb].
  - rewrite ret_eq. eexists. split; [reflexivity|]. split; [exact Hnet1|].
    split; [rewrite after_read_posts; lia|].
    intros key' _. apply after_read_visible.
  - rewrite bind_eq. unfold utcnow, gets. rewrite bind_eq.
    rewrite write_healthy by exact Hnet1. rewrite ret_eq.
    eexists. split; [reflexivity|]. split; [apply wrote_net, Hnet1|]. split.
    + simpl trace. rewrite document_posts_app, after_read_posts.
      unfold key. rewrite document_post_one. reflexivity.
    + intros key' Hne. rewrite wrote_visible_ne by assumption.
      apply after_read_visible.
Qed.

Lemma guild_key_int_inj (a b : Z) :
  guild_key (PInt a) = guild_key (PInt b) -> a = b.
Proof.
  unfold guild_key. simpl. intros Heq. inversion Heq as [Hp].
  exact (pretty_Z_inj _ _ Hp).
Qed.

Lemma undocumented_ext (st st' : state) (bot_guilds : list discord.Guild) :
  (forall guild, In guild bot_guilds ->
     documented st' guild = documented st guild) ->
  undocumented st' bot_guilds = undocumented st bot_guilds.
Proof.
  intros Hext. unfold undocumented.
  induction bot_guilds as [|guild rest IH]; [reflexivity|].
  rewrite !filter_cons. rewrite Hext by (left; reflexivity).
  rewrite IH by (intros g Hg; apply Hext; right; exact Hg).
  reflexivity.
Qed.

Lemma sync_loop_healthy (bot_guilds : list discord.Guild)
  (success failed : Z) (guilds : list value) (st : state) :
  net st = [] ->
  exists st',
    sync_loop bot_guilds success failed guilds st =
      (Ok ((success + Z.of_nat (length bot_guilds))%Z, failed,
           guilds ++ map id_of bot_guilds), st') /\
    net st' = [] /\
    (NoDup (map discord.id bot_guilds) ->
     document_posts (trace st') =
       (document_posts (trace st) + length (undocumented st bot_guilds))%nat).
Proof.
  revert success guilds st.
  induction bot_guilds as [|guild rest IH]; intros success guilds st Hnet.
  - exists st. simpl. rewrite Z.add_0_r, app_nil_r.
    split; [reflexivity|]. split; [exact Hnet|]. unfold undocumented. simpl. lia.
  - simpl sync_loop. rewrite bind_eq. unfold try_except. rewrite bind_eq.
    destruct (sync_guild_healthy guild st Hnet)
      as (st1 & Hbody & Hnet1 & Hposts & Hframe).
    rewrite Hbody, ret_eq.
    destruct (IH (success + 1)%Z (guilds ++ [id_of guild]) st1 Hnet1)
      as (st' & Hrest & Hnet' & Hposts').
    exists st'. unfold id_of in Hrest at 1. rewrite Hrest.
    rewrite <- app_assoc. simpl length. simpl map.
    replace (success + Z.of_nat (S (length rest)))%Z
      with (success + 1 + Z.of_nat (length rest))%Z by lia.
    split; [reflexivity|]. split; [exact Hnet'|].
    intros Hnd. apply NoDup_cons in Hnd as [Hfresh Hnd].
    rewrite Hposts', Hposts by exact Hnd.
    rewrite (undocumented_ext st st1).
    + unfold undocumented at 2. rewrite filter_cons.
      fold (undocumented st rest).
      destruct (documented st guild); simpl; lia.
    + intros g Hg. unfold documented. f_equal. apply Hframe.
      intros Heq. apply guild_key_int_inj in Heq.
      apply Hfresh. rewrite <- Heq. apply list_elem_of_In, in_map, Hg.
Qed.

Lemma undocumented_length (st : state) (bot_guilds : list discord.Guild) :
  length (undocumented st bot_guilds) =
    (length bot_guilds
     - length (filter (fun guild => documented st guild = true) bot_guilds))%nat.
Proof.
  unfold undocumented.
  induction bot_guilds as [|guild rest IH]; [reflexivity|].
  rewrite !filter_cons.
  assert (Hle : (length (filter (fun guild => documented st guild = true) rest)
                 <= length rest)%nat) by apply length_filter.
  destruct (documented st guild) eqn:E.
  - rewrite decide_False by discriminate. rewrite decide_True by reflexivity.
    simpl. exact IH.
  - rewrite decide_True by reflexivity. rewrite decide_False by discriminate.
    simpl. rewrite IH. lia.
Qed.

Lemma last_request (t : list request) (r : request) : last (t ++ [r]) = Some r.
Proof. apply last_snoc. Qed.

(** The report of [sync_guilds]: [success = N] and [failed = 0]
    whatever the store does, the loop going through all N guilds and
    ending by posting their ids as the index. A failed read or write of
    one guild is absorbed by [_read_data] and [_write_data] and never
    reaches the handler that counts failures. On a healthy store, with
    the N guilds pairwise distinct and M of them documented, exactly
    N - M documents are posted. *)
Theorem sync_guilds_report (bot_guilds : list discord.Guild) (st : state) :
  exists st',
    sync_guilds bot_guilds st =
      (Ok (sync_report (Z.of_nat (length bot_guilds)) 0), st') /\
    last (trace st') =
      Some (POST "guilds" (json_dumps (PList (map id_of bot_guilds)))) /\
    (net st = [] -> NoDup (map discord.id bot_guilds) ->
     document_posts (trace st') =
       (document_posts (trace st)
        + (length bot_guilds
           - length (filter (fun guild => documented st guild = true)
                       bot_guilds)))%nat).
Proof.
  unfold sync_guilds, try_except. rewrite bind_eq.
  destruct (sync_loop_total bot_guilds 0 0 [] st) as (st1 & Hloop).
  rewrite Hloop. simpl app. rewrite bind_eq, write_eq.
  assert (Hcount : net st = [] -> NoDup (map discord.id bot_guilds) ->
            net st1 = [] /\
            document_posts (trace st1) =
              (document_posts (trace st)
               + length (undocumented st bot_guilds))%nat).
  { intros Hnet Hnd.
    destruct (sync_loop_healthy bot_guilds 0 0 [] st Hnet)
      as (st2 & Hloop2 & Hnet2 & Hposts).
    rewrite Hloop in Hloop2. inversion Hloop2; subst st2. auto. }
  assert (Hindex : document_posts
                     [POST "guilds" (json_dumps (PList (map id_of bot_guilds)))]
                   = 0%nat) by reflexivity.
  destruct (fate st1) eqn:Hfate; rewrite ret_eq; eexists;
    (split; [reflexivity|]); (split; [apply last_request|]);
    intros Hnet Hnd; destruct (Hcount Hnet Hnd) as [Hnet1 Hposts];
    simpl trace; rewrite document_posts_app, Hposts, Hindex,
      undocumented_length; simpl payload; lia.
Qed.

End Sync.

Section Index.
Context `{PyRuntime}.

Lemma guild_key_not_index (guild_id : value) : guild_key guild_id <> "guilds".
Proof. unfold guild_key. simpl. discriminate. Qed.

Lemma is_str_eq (s : string) (v : value) : Py.is_str s v = true -> v = PStr s.
Proof.
  destruct v; simpl; try discriminate.
  intros E. apply String.eqb_eq in E. congruence.
Qed.

Lemma listed_stored (st : state) (l : list value) :
  stored st "guilds" = Some (PList l) ->
  forall id, listed st id <-> In (PStr id) l.
Proof.
  intros Hindex id. unfold listed. rewrite Hindex. split.
  - intros (l' & Hl' & Hin). inversion Hl'; subst l'. exact Hin.
  - intros Hin. exists l. auto.
Qed.

Lemma listed_frame (st st' : state) (id : string) :
  store st' !! "guilds" = store st !! "guilds" ->
  listed st id -> listed st' id.
Proof. unfold listed, stored. intros ->. auto. Qed.

Lemma document_key_inj (id id' : string) :
  ("guild:" ++ id)%string = ("guild:" ++ id')%string -> id = id'.
Proof. intros Heq. injection Heq as Hid. exact Hid. Qed.

Lemma document_key_not_index (id : string) :
  ("guild:" ++ id)%string <> "guilds".
Proof. simpl. discriminate. Qed.

(** One turn of the loop of [sync_guilds] changes the store under the
    guild's key only. *)
Lemma sync_guild_store (guild : discord.Guild) (st : state) (r : res unit)
  (st' : state) :
  net st = [] ->
  sync_guild guild st = (r, st') ->
  forall k, k <> guild_key (PInt (discord.id guild)) ->
    store st' !! k = store st !! k.
Proof.
  intros Hnet. unfold sync_guild. rewrite bind_eq.
  rewrite get_guild_data_healthy by assumption.
  set (key := guild_key (PInt (discord.id guild))).
  assert (Hnet1 : net (after_read key st) = []) by (apply after_read_net, Hnet).
  destruct (negb _).
  - rewrite bind_eq. unfold utcnow, gets. rewrite bind_eq.
    rewrite write_healthy by exact Hnet1. rewrite ret_eq.
    intros Hrun k Hk. inversion Hrun; subst. simpl store.
    rewrite lookup_insert_ne by congruence.
    rewrite after_read_store. reflexivity.
  - rewrite ret_eq. intros Hrun k Hk. inversion Hrun; subst.
    rewrite after_read_store. reflexivity.
Qed.

Lemma sync_loop_store (bot_guilds : list discord.Guild)
  (success failed : Z) (guilds : list value) (st : state)
  (r : res (Z * Z * list value)) (st' : state) :
  net st = [] ->
  sync_loop bot_guilds success failed guilds st = (r, st') ->
  forall k,
    (forall guild, In guild bot_guilds ->
       k <> guild_key (PInt (discord.id guild))) ->
    store st' !! k = store st !! k.
Proof.
  revert success guilds st.
  induction bot_guilds as [|guild rest IH]; intros success guilds st Hnet.
  - simpl. rewrite ret_eq. intros Hrun k _. inversion Hrun; subst. reflexivity.
  - simpl sync_loop. rewrite bind_eq. unfold try_except. rewrite bind_eq.
    destruct (sync_guild_healthy guild st Hnet)
      as (st1 & Hbody & Hnet1 & _).
    rewrite Hbody, ret_eq. intros Hrun k Hk.
    rewrite (IH _ _ _ Hnet1 Hrun)
      by (intros g Hg; apply Hk; right; exact Hg).
    apply (sync_guild_store guild st (Ok tt) st1 Hnet Hbody).
    apply Hk. left. reflexivity.
Qed.

(** [ensure_guild_exists] on a healthy store, with the index read as a
    list that has the ids the stored index lists. *)
Lemma ensure_guild_exists_listed (guild_id : Z) (guild_name : string)
  (l : list value) (st : state) :
  net st = [] ->
  Py.or_ (visible st "guilds") (PList []) = PList l ->
  (forall id, listed st id <-> In (PStr id) l) ->
  decode (json_dumps (PList (l ++ [PStr (pretty guild_id)])))
    = PList (l ++ [PStr (pretty guild_id)]) ->
  exists st',
    ensure_guild_exists guild_id guild_name st = (Ok true, st') /\
    listed st' (pretty guild_id) /\
    ((forall id, id <> pretty guild_id -> has_document st id -> listed st id) ->
     index_invariant st').
Proof.
  intros Hnet Hor Hagree Hround.
  unfold ensure_guild_exists, try_except.
  rewrite bind_eq, read_healthy by assumption.
  cbv zeta. rewrite Hor.
  set (held := visible st "guilds").
  set (st1 := after_read "guilds" st).
  assert (Hnet1 : net st1 = []) by (apply after_read_net, Hnet).
  assert (Hstore1 : store st1 = store st) by apply after_read_store.
  rewrite bind_eq, get_guild_data_healthy by assumption.
  set (key := guild_key (PInt guild_id)).
  set (st2 := after_read key st1).
  assert (Hnet2 : net st2 = []) by (apply after_read_net, Hnet1).
  assert (Hstore2 : store st2 = store st).
  { unfold st2. rewrite after_read_store. exact Hstore1. }
  rewrite bind_eq.
  assert (Hdoc : exists st3,
    (if negb (Py.truthy (Py.or_ (visible st1 key) (PDict [])))
     then now ← utcnow;
          _write_data key
            (new_guild_data guild_id guild_name now);; mret ()
     else mret ()) st2 = (Ok tt, st3) /\
    net st3 = [] /\
    forall k, k <> key -> store st3 !! k = store st !! k).
  { destruct (negb _).
    - rewrite bind_eq. unfold utcnow, gets. rewrite bind_eq.
      rewrite write_healthy by exact Hnet2. rewrite ret_eq.
      eexists. split; [reflexivity|]. split; [apply wrote_net, Hnet2|].
      intros k Hk. simpl store. rewrite lookup_insert_ne by congruence.
      rewrite Hstore2. reflexivity.
    - rewrite ret_eq. eexists. split; [reflexivity|]. split; [exact Hnet2|].
      intros k _. rewrite Hstore2. reflexivity. }
  destruct Hdoc as (st3 & Hrun3 & Hnet3 & Hframe3). rewrite Hrun3.
  assert (Hindex3 : store st3 !! "guilds" = store st !! "guilds")
    by (apply Hframe3, not_eq_sym, guild_key_not_index).
  assert (Hdocs3 : forall id, id <> pretty guild_id ->
            store st3 !! ("guild:" ++ id)%string
            = store st !! ("guild:" ++ id)%string).
  { intros id Hid. apply Hframe3. intros Heq. apply Hid.
    apply document_key_inj. exact Heq. }
  rewrite bind_eq, lift_eq. simpl Py.contains. cbv iota.
  destruct (existsb (Py.is_str (pretty guild_id)) l) eqn:Hlisted; cbn [negb].
  - rewrite bind_eq, !ret_eq. exists st3. split; [reflexivity|].
    assert (Hkeep : forall id, listed st id -> listed st3 id)
      by (intros id; apply listed_frame, Hindex3).
    assert (Hself : listed st3 (pretty guild_id)).
    { apply Hkeep, Hagree.
      apply existsb_exists in Hlisted as (x & Hin & Hx).
      apply is_str_eq in Hx. subst x. exact Hin. }
    split; [exact Hself|].
    intros Hothers id Hhas.
    destruct (decide (id = pretty guild_id)) as [->|Hid]; [exact Hself|].
    apply Hkeep, Hothers; [exact Hid|].
    unfold has_document in *. rewrite <- Hdocs3 by exact Hid. exact Hhas.
  - assert (Hfinal : forall s, store s = store st3 ->
              let s' := wrote "guilds"
                          (json_dumps (PList (l ++ [PStr (pretty guild_id)])))
                          s in
              listed s' (pretty guild_id) /\
              ((forall id, id <> pretty guild_id ->
                  has_document st id -> listed st id) ->
               index_invariant s')).
    { intros s Hs s'.
      assert (Hindex' : stored s' "guilds"
                        = Some (PList (l ++ [PStr (pretty guild_id)]))).
      { unfold stored. simpl store. rewrite lookup_insert_eq.
        simpl. f_equal. exact Hround. }
      assert (Hdocs' : forall id, id <> pretty guild_id ->
                store s' !! ("guild:" ++ id)%string
                = store st !! ("guild:" ++ id)%string).
      { intros id Hid. simpl store.
        rewrite lookup_insert_ne
          by (apply not_eq_sym, document_key_not_index).
        rewrite Hs. apply Hdocs3, Hid. }
      assert (Hself : In (PStr (pretty guild_id))
                        (l ++ [PStr (pretty guild_id)]))
        by (apply in_or_app; right; left; reflexivity).
      split; [apply (listed_stored _ _ Hindex'), Hself|].
      intros Hothers id Hhas. apply (listed_stored _ _ Hindex').
      destruct (decide (id = pretty guild_id)) as [->|Hid]; [exact Hself|].
      apply in_or_app. left. apply Hagree, Hothers; [exact Hid|].
      unfold has_document in *. rewrite <- Hdocs' by exact Hid. exact Hhas. }
    rewrite !bind_eq, lift_eq. simpl Py.append. cbv iota.
    rewrite bind_eq.
    match goal with
    | |- context [(if ?b then _ else _) st3] => destruct b
    end; [rewrite cache_set_eq|rewrite ret_eq];
      rewrite bind_eq, write_healthy by exact Hnet3;
      rewrite !ret_eq; (eexists; split; [reflexivity|]);
      apply Hfinal; reflexivity.
Qed.

(** C4, amended. On a healthy store, with a runtime whose JSON gives
    back the index it is given:

    [sync_guilds] leaves as the index the ids of the current guilds and
    nothing else, so a guild outside the current list is not indexed,
    whether it has a document or not; the invariant holds afterwards
    when no document is left of a guild outside the current list,
    whatever the index was before.

    [ensure_guild_exists], when the index it reads (from the cache or
    from the store) is a list with the ids the stored index lists,
    returns [True] and leaves the guild's id in the stored index; the
    invariant holds afterwards when before the call this guild's
    document was the only one that could lack its entry. *)
Theorem index_after_sync_and_ensure (st : state) :
  net st = [] ->
  (forall bot_guilds,
      decode (json_dumps (PList (map id_of bot_guilds)))
        = PList (map id_of bot_guilds) ->
      exists st',
        sync_guilds bot_guilds st =
          (Ok (sync_report (Z.of_nat (length bot_guilds)) 0), st') /\
        stored st' "guilds" = Some (PList (map id_of bot_guilds)) /\
        ((forall id, has_document st id ->
            In (PStr id) (map id_of bot_guilds)) ->
         index_invariant st')) /\
  (forall guild_id guild_name l,
      Py.or_ (visible st "guilds") (PList []) = PList l ->
      (forall id, listed st id <-> In (PStr id) l) ->
      decode (json_dumps (PList (l ++ [PStr (pretty guild_id)])))
        = PList (l ++ [PStr (pretty guild_id)]) ->
      exists st',
        ensure_guild_exists guild_id guild_name st = (Ok true, st') /\
        listed st' (pretty guild_id) /\
        ((forall id, id <> pretty guild_id ->
            has_document st id -> listed st id) ->
         index_invariant st')).
Proof.
  intros Hnet. split.
  - intros bot_guilds Hround. unfold sync_guilds, try_except. rewrite bind_eq.
    destruct (sync_loop_healthy bot_guilds 0 0 [] st Hnet)
      as (st1 & Hloop & Hnet1 & _).
    rewrite Hloop. simpl app. rewrite bind_eq.
    rewrite write_healthy by exact Hnet1. rewrite ret_eq.
    eexists. split; [reflexivity|].
    match goal with
    | |- stored ?s _ = _ /\ _ =>
        assert (Hindex : stored s "guilds"
                         = Some (PList (map id_of bot_guilds)))
          by (unfold stored; simpl store; rewrite lookup_insert_eq;
              simpl; f_equal; exact Hround)
    end.
    split; [exact Hindex|].
    intros Hdocs id Hhas. apply (listed_stored _ _ Hindex).
    unfold has_document in Hhas. simpl store in Hhas.
    rewrite lookup_insert_ne in Hhas
      by (apply not_eq_sym, document_key_not_index).
    destruct (decide (id ∈ map (fun guild => pretty (discord.id guild))
                               bot_guilds)) as [Hin|Hout].
    + apply list_elem_of_In, in_map_iff in Hin as (guild & <- & Hin).
      apply in_map_iff. exists guild. split; [reflexivity|exact Hin].
    + apply Hdocs. unfold has_document.
      rewrite <- (sync_loop_store _ _ _ _ _ _ _ Hnet Hloop); [exact Hhas|].
      intros guild Hguild Heq. apply Hout.
      apply list_elem_of_In, in_map_iff. exists guild.
      split; [|exact Hguild].
      symmetry. apply document_key_inj. exact Heq.
  - intros guild_id guild_name l. apply ensure_guild_exists_listed, Hnet.
Qed.

End Index.

Section Cleanup.
Context `{PyRuntime}.








Lemma assign_eq (shared : bool) (key : string) (data : value) (st : state) :
  assign shared key (Ok data) st = (Ok data, assigned shared key data st).
Proof.
  unfold assign, assigned. rewrite bind_eq, lift_eq, bind_eq.
  destruct shared; reflexivity.
Qed.

Lemma assigned_store shared key doc st :
  store (assigned shared key doc st) = store st.
Proof. destruct shared; reflexivity. Qed.


Lemma assigned_cache_ne shared key k doc st :
  k <> key -> _cache (assigned shared key doc st) !! k = _cache st !! k.
Proof.
  intros Hne. destruct shared; simpl; [|reflexivity].
  apply lookup_insert_ne. congruence.
Qed.

Lemma after_read_clock key st : clock (after_read key st) = clock st.
Proof.
  unfold after_read.
  destruct (_cache st !! key), (store st !! key); reflexivity.
Qed.

Lemma after_read_cache_ne key k st :
  k <> key -> _cache (after_read key st) !! k = _cache st !! k.
Proof.
  intros Hne. unfold after_read.
  destruct (_cache st !! key), (store st !! key); simpl; try reflexivity.
  apply lookup_insert_ne. congruence.
Qed.


Lemma for_each_invariant {A} (J : state -> Prop) (body : A -> M unit)
  (xs : list A) :
  (forall x s r s', J s -> body x s = (r, s') -> J s') ->
  forall s r s', J s -> for_each xs body s = (r, s') -> J s'.
Proof.
  intros Hbody. induction xs as [|x xs IH]; intros s r s' HJ Hrun.
  - simpl in Hrun. rewrite ret_eq in Hrun. inversion Hrun; subst. exact HJ.
  - simpl in Hrun. rewrite bind_eq in Hrun.
    destruct (body x s) as [[[]|e] s1] eqn:Hx.
    + eapply IH; [|exact Hrun]. eapply Hbody; eauto.
    + inversion Hrun; subst. eapply Hbody; eauto.
Qed.


Lemma assign_run (shared : bool) (key : string) (r : res value) (st : state) :
  assign shared key r st =
    match r with
    | Ok data => (Ok data, assigned shared key data st)
    | Raise e => (Raise e, st)
    end.
Proof. destruct r; [apply assign_eq|reflexivity]. Qed.

Lemma assigned_frame (shared : bool) (key : string) (doc : value)
  (st : state) (k : string) :
  k <> key ->
  _cache (assigned shared key doc st) !! k = _cache st !! k /\
  store (assigned shared key doc st) !! k = store st !! k.
Proof.
  intros Hne. rewrite assigned_cache_ne by assumption.
  rewrite assigned_store. auto.
Qed.

(** One turn of the cleanup loop, whatever it finds and however it ends,
    touches the cache and the store under the guild's key only. *)
Lemma cleanup_guild_frame (cutoff : Z) (guild_id : value) (st : state)
  (r : res unit) (st' : state) :
  net st = [] ->
  cleanup_guild cutoff guild_id st = (r, st') ->
  net st' = [] /\
  forall k, k <> guild_key guild_id ->
    _cache st' !! k = _cache st !! k /\ store st' !! k = store st !! k.
Proof.
  intros Hnet. unfold cleanup_guild. cbv zeta.
  rewrite bind_eq, get_guild_data_healthy by assumption.
  set (key := guild_key guild_id).
  set (data := Py.or_ (visible st key) (PDict [])).
  set (st1 := after_read key st).
  assert (Hnet1 : net st1 = []) by (apply after_read_net, Hnet).
  assert (Hframe1 : forall k, k <> key ->
            _cache st1 !! k = _cache st !! k /\ store st1 !! k = store st !! k).
  { intros k Hk. unfold st1. rewrite after_read_cache_ne by assumption.
    rewrite after_read_store. auto. }
  rewrite bind_eq, assign_run.
  destruct (clean_section "logs" _ data) as [d1|e1];
    [|intros Hrun; inversion Hrun; subst; auto].
  rewrite bind_eq. unfold utcnow at 1, gets at 1. rewrite bind_eq, assign_run.
  destruct (clean_section "mod_actions" _ d1) as [d2|e2];
    [|intros Hrun; inversion Hrun; subst;
      split; [rewrite assigned_net; exact Hnet1|];
      intros k Hk; destruct (assigned_frame (Py.truthy data) key d1 st1 k Hk)
        as [-> ->]; auto].
  rewrite bind_eq, assign_run.
  destruct (clean_section "whispers" _ d2) as [d3|e3];
    [|intros Hrun; inversion Hrun; subst;
      split; [rewrite !assigned_net; exact Hnet1|];
      intros k Hk;
      destruct (assigned_frame (Py.truthy data) key d2
                  (assigned (Py.truthy data) key d1 st1) k Hk) as [-> ->];
      destruct (assigned_frame (Py.truthy data) key d1 st1 k Hk)
        as [-> ->]; auto].
  rewrite bind_eq, write_healthy by (rewrite !assigned_net; exact Hnet1).
  rewrite ret_eq. intros Hrun. inversion Hrun; subst.
  split; [apply wrote_net; rewrite !assigned_net; exact Hnet1|].
  intros k Hk. simpl. rewrite !lookup_insert_ne by congruence.
  rewrite !assigned_cache_ne by assumption. rewrite !assigned_store.
  apply Hframe1, Hk.
Qed.

(** On a document as [new_guild_data] makes it, the turn stops at the
    [logs] section, a mapping whose keys are not log entries. *)
Lemma cleanup_guild_new_guild (cutoff : Z) (guild_id : value) (id : Z)
  (name : string) (joined : Z) (st : state) :
  net st = [] ->
  visible st (guild_key guild_id) = new_guild_data id name joined ->
  cleanup_guild cutoff guild_id st
    = (Raise TypeError, after_read (guild_key guild_id) st).
Proof.
  intros Hnet Hvis. unfold cleanup_guild. cbv zeta.
  rewrite bind_eq, get_guild_data_healthy by assumption.
  rewrite Hvis. rewrite bind_eq, assign_run. reflexivity.
Qed.

Lemma visible_frame (st st' : state) (k : string) :
  _cache st' !! k = _cache st !! k -> store st' !! k = store st !! k ->
  visible st' k = visible st k.
Proof. intros Hc Hs. unfold visible, stored. rewrite Hc, Hs. reflexivity. Qed.

Lemma cleanup_loop_new_guild (cutoff : Z) (l : list value) (x : value)
  (id : Z) (name : string) (joined : Z) (st : state) :
  net st = [] ->
  In x l ->
  visible st (guild_key x) = new_guild_data id name joined ->
  exists e st',
    for_each l (cleanup_guild cutoff) st = (Raise e, st') /\
    store st' !! guild_key x = store st !! guild_key x.
Proof.
  revert st. induction l as [|y l IH]; intros st Hnet Hin Hvis; [destruct Hin|].
  simpl for_each. rewrite bind_eq.
  destruct (decide (guild_key y = guild_key x)) as [Heq|Hne].
  - rewrite (cleanup_guild_new_guild cutoff y id name joined) by congruence.
    eexists. eexists. split; [reflexivity|]. rewrite after_read_store.
    reflexivity.
  - destruct (cleanup_guild cutoff y st) as [[[]|e] s1] eqn:Hy;
      destruct (cleanup_guild_frame _ _ _ _ _ Hnet Hy) as [Hnet1 Hframe];
      destruct (Hframe (guild_key x) (not_eq_sym Hne)) as [Hc Hs].
    + destruct (IH s1 Hnet1) as (e & st' & Hrun & Hstore).
      * destruct Hin as [->|Hin]; [congruence|exact Hin].
      * rewrite (visible_frame st s1) by assumption. exact Hvis.
      * exists e, st'. split; [exact Hrun|]. congruence.
    + exists e, s1. split; [reflexivity|exact Hs].
Qed.


Lemma map_section_get_eq (section : string) (f : list value -> list value)
  (doc : list (string * value)) (l : list value) :
  Py.dict_get doc section = Some (PList l) ->
  Py.dict_get (map_section section f doc) section = Some (PList (f l)).
Proof.
  intros Hget. unfold map_section. rewrite Hget. apply dict_get_set_eq.
Qed.

Lemma map_section_get_ne (section section' : string)
  (f : list value -> list value) (doc : list (string * value)) :
  section <> section' ->
  Py.dict_get (map_section section f doc) section' = Py.dict_get doc section'.
Proof.
  intros Hne. unfold map_section.
  destruct (Py.dict_get doc section) as [[| | | |l|]|]; try reflexivity.
  apply dict_get_set_ne. exact Hne.
Qed.

(** What [cleaned] keeps, section by section. *)
Lemma cleaned_logs (cutoff now : Z) (doc : list (string * value))
  (l : list value) :
  Py.dict_get doc "logs" = Some (PList l) ->
  Py.dict_get (cleaned cutoff now doc) "logs"
    = Some (PList (List.filter (later_than cutoff "timestamp") l)).
Proof.
  intros Hget. unfold cleaned.
  rewrite !map_section_get_ne by discriminate.
  apply map_section_get_eq, Hget.
Qed.

Lemma cleaned_mod_actions (cutoff now : Z) (doc : list (string * value))
  (l : list value) :
  Py.dict_get doc "mod_actions" = Some (PList l) ->
  Py.dict_get (cleaned cutoff now doc) "mod_actions"
    = Some (PList (List.filter (live now "expires") l)).
Proof.
  intros Hget. unfold cleaned.
  rewrite map_section_get_ne by discriminate.
  apply map_section_get_eq.
  rewrite map_section_get_ne by discriminate. exact Hget.
Qed.

Lemma cleaned_whispers (cutoff now : Z) (doc : list (string * value))
  (l : list value) :
  Py.dict_get doc "whispers" = Some (PList l) ->
  Py.dict_get (cleaned cutoff now doc) "whispers"
    = Some (PList (List.filter (live cutoff "closed_at") l)).
Proof.
  intros Hget. unfold cleaned. apply map_section_get_eq.
  rewrite !map_section_get_ne by discriminate. exact Hget.
Qed.

Lemma cleaned_other (cutoff now : Z) (doc : list (string * value))
  (section : string) :
  section <> "logs" -> section <> "mod_actions" -> section <> "whispers" ->
  Py.dict_get (cleaned cutoff now doc) section = Py.dict_get doc section.
Proof.
  intros H1 H2 H3. unfold cleaned.
  rewrite !map_section_get_ne by congruence. reflexivity.
Qed.



End Cleanup.

Section LogsHealthy.
Context `{PyRuntime}.

Lemma dict_set_truthy (d : list (string * value)) (k : string) (v : value) :
  Py.truthy (PDict (Py.dict_set d k v)) = true.
Proof.
  destruct d as [|[k' v'] d]; simpl; [reflexivity|].
  destruct (String.eqb k' k); reflexivity.
Qed.

(** When the document is read as a mapping, [add_log] stores the old
    entries followed by the new one, cut to the last 1000. *)
Lemma add_log_healthy (guild_id : value) (log_data doc : list (string * value))
  (l : list value) (st : state) :
  net st = [] ->
  Py.or_ (visible st (guild_key guild_id)) (PDict []) = PDict doc ->
  Py.or_ (default (PDict []) (Py.dict_get doc "logs")) (PList []) = PList l ->
  let entry := PDict (Py.dict_set log_data "timestamp"
                        (PStr (isoformat (clock st)))) in
  let kept := if (1000 <? length (l ++ [entry]))%nat
              then Py.last_n 1000 (l ++ [entry]) else l ++ [entry] in
  exists st' doc',
    add_log guild_id log_data st = (Ok true, st') /\
    store st' !! guild_key guild_id = Some (json_dumps (PDict doc')) /\
    Py.dict_get doc' "logs" = Some (PList kept).
Proof.
  intros Hnet Hdoc Hlogs entry kept.
  set (key := guild_key guild_id) in *.
  set (st1 := after_read key st).
  assert (Hnet1 : net st1 = []) by (apply after_read_net, Hnet).
  assert (Hrun : exists st2 doc2,
            net st2 = [] /\
            Py.or_ (visible st2 key) (PDict []) = PDict doc2 /\
            add_log guild_id log_data st =
              update_section guild_id "logs" (PList kept) st2).
  { unfold add_log. rewrite bind_eq, get_section_healthy by assumption.
    fold key. fold st1. rewrite Hdoc. simpl Py.get. cbv iota.
    rewrite bind_eq. unfold utcnow at 1, gets at 1.
    rewrite bind_eq, lift_eq, Hlogs. simpl Py.append. cbv iota.
    assert (Hclock : clock st1 = clock st) by apply after_read_clock.
    rewrite Hclock. fold entry. rewrite bind_eq.
    assert (Hkept : (if (1000 <? length (l ++ [entry]))%nat
                     then PList (Py.last_n 1000 (l ++ [entry]))
                     else PList (l ++ [entry])) = PList kept).
    { unfold kept. destruct (1000 <? length (l ++ [entry]))%nat; reflexivity. }
    rewrite Hkept.
    destruct (Py.truthy (default (PDict []) (Py.dict_get doc "logs"))) eqn:Hheld.
    - (* the list lives inside the cached document *)
      assert (Hdoc' : visible st key = PDict doc /\ Py.truthy (visible st key) = true).
      { unfold Py.or_ in Hdoc. destruct (Py.truthy (visible st key)) eqn:E; [auto|].
        inversion Hdoc; subst doc. discriminate Hheld. }
      destruct Hdoc' as [Hvis Htruthy].
      assert (Hcached : _cache st1 !! key = Some (PDict doc)).
      { unfold st1. rewrite <- Hvis. apply after_read_cached, Htruthy. }
      unfold touch_section, modify.
      match goal with
      | |- context [update_section _ _ _ ?s] => set (st2 := s)
      end.
      exists st2. eexists. split; [exact Hnet1|]. split; [|reflexivity].
      unfold visible, st2. simpl _cache.
      rewrite lookup_alter_eq, Hcached. simpl.
      unfold Py.or_. rewrite dict_set_truthy. reflexivity.
    - rewrite ret_eq. exists st1, doc. split; [exact Hnet1|].
      split; [|reflexivity].
      unfold st1. rewrite after_read_visible. exact Hdoc. }
  destruct Hrun as (st2 & doc2 & Hnet2 & Hdoc2 & Hrun). rewrite Hrun.
  rewrite update_section_healthy by exact Hnet2.
  fold key. cbv zeta. rewrite Hdoc2. simpl Py.setitem. cbv iota.
  eexists. exists (Py.dict_set doc2 "logs" (PList kept)).
  split; [reflexivity|]. split.
  - simpl. apply lookup_insert_eq.
  - apply dict_get_set_eq.
Qed.

End LogsHealthy.

(** ** Runs on the CPython runtime *)
Section Runs.

Lemma run_pair {A} (m : M A) (st : state) (r : res A) :
  run_result m st = r -> m st = (r, run_state m st).
Proof.
  unfold run_result, run_state. destruct (m st) as [r' st']. simpl.
  congruence.
Qed.

(** A run of C1: the empty mapping is written, then read back while the
    store is unreachable. *)
Lemma write_then_read_returns_text_witness :
  exists r,
    _read_data "k" (set_net [Unreachable] (wrote "k" "{}" boot))
      = (Ok r, set_net [Unreachable] (wrote "k" "{}" boot)) /\
    r = PStr (json_dumps (PDict [])) /\ r <> PDict [].
Proof.
  apply (write_then_read_returns_text "k" (PDict []) boot
           (wrote "k" "{}" boot) [Unreachable]).
  - exact (write_healthy "k" (PDict []) boot eq_refl).
  - intros s. discriminate.
Defined.

(** A run of C2: a transaction with two buffered changes leaves its
    scope cleanly. *)
Lemma commit_then_read_returns_text_witness :
  let self := mkTransaction 1 "xp" 0
                [("a", PDict [("x", PInt 1)]); ("b", PStr "raw")] in
  let st := set_locks [true] boot in
  exists st',
    __aexit__ self None st = (Ok tt, st') /\
    trace st' = trace st ++ map post_of (changes self) /\
    forall key v, In (key, v) (changes self) ->
      _read_data key st' = (Ok (PStr (payload v)), st') /\
      ((forall s, v <> PStr s) -> PStr (payload v) <> v).
Proof.
  intros self st. apply (commit_then_read_returns_text self st).
  - reflexivity.
  - reflexivity.
  - apply (bool_decide_unpack _). vm_compute. exact I.
Defined.


(** A run of C9: a record for [u2] is added next to that of [u1]. *)
Lemma update_user_xp_frame_witness :
  let st := archive [PStr "1"] [("1", xp_document)] in
  let st' := run_state (update_user_xp (PInt 1) "u2" (PDict [("xp", PInt 5)])) st in
  exists doc doc',
    (get_guild_data (PInt 1) st).1 = Ok (PDict doc) /\
    store st' !! guild_key (PInt 1) = Some (json_dumps (PDict doc')) /\
    (forall section, section <> "xp_users" ->
       Py.dict_get doc' section = Py.dict_get doc section) /\
    (forall other, other <> "u2" -> xp_of doc' other = xp_of doc other) /\
    xp_of doc' "u2" = Some (PDict [("xp", PInt 5)]).
Proof.
  intros st st'.
  apply (update_user_xp_frame (PInt 1) "u2" (PDict [("xp", PInt 5)]) st st').
  - reflexivity.
  - apply run_pair. vm_compute. reflexivity.
Defined.

(** A run of C5: two log entries in a row on a new manager. *)
Lemma add_log_again_raises_witness :
  let first := [("event", PStr "join")] in
  let second := [("event", PStr "leave")] in
  let st1 := run_state (add_log (PInt 1) first) boot in
  (exists doc l,
     store st1 !! guild_key (PInt 1) = Some (json_dumps (PDict doc)) /\
     Py.dict_get doc "logs" = Some (PList l) /\ (length l <= 1000)%nat) /\
  add_log (PInt 1) second st1 = (Raise AttributeError, st1).
Proof.
  intros first second st1.
  apply (add_log_again_raises (PInt 1) first second boot st1).
  - intros d. simpl. discriminate.
  - apply run_pair. vm_compute. reflexivity.
Defined.

(** C7 (the code departs from the claim). On a new store, [initialize]
    leaves the text of the empty index in the cache; each of two
    [ensure_guild_exists] calls for guild 5 then returns [False]. The
    document is created by the first call and left as it is by the
    second, but the stored index never receives the id. *)
Theorem ensure_guild_exists_twice_after_initialize :
  let s1 := run_state initialize boot in
  let s2 := run_state (ensure_guild_exists 5 "g") s1 in
  let s3 := run_state (ensure_guild_exists 5 "g") s2 in
  run_result initialize boot = Ok true /\
  run_result (ensure_guild_exists 5 "g") s1 = Ok false /\
  run_result (ensure_guild_exists 5 "g") s2 = Ok false /\
  has_document s3 "5" /\
  store s3 !! "guild:5" = store s2 !! "guild:5" /\
  stored s3 "guilds" = Some (PList []) /\
  ~ listed s3 "5".
Proof.
  intros s1 s2 s3.
  assert (Hindex : stored s3 "guilds" = Some (PList []))
    by (vm_compute; reflexivity).
  split; [vm_compute; reflexivity|].
  split; [vm_compute; reflexivity|].
  split; [vm_compute; reflexivity|].
  split; [vm_compute; eauto|].
  split; [vm_compute; reflexivity|].
  split; [exact Hindex|].
  intros (l & Hl & Hin). rewrite Hindex in Hl. inversion Hl; subst l.
  destruct Hin.
Qed.

(** The same defect without [initialize]: once the index has been
    written in this process, membership is tested on its JSON text, and
    the id 5 is found inside the id 15. Guild 5 gets a document and is
    never indexed. *)
Example ensure_guild_exists_matches_substring :
  let s1 := run_state (ensure_guild_exists 15 "first") boot in
  let s2 := run_state (ensure_guild_exists 5 "g") s1 in
  let s3 := run_state (ensure_guild_exists 5 "g") s2 in
  run_result (ensure_guild_exists 5 "g") s1 = Ok true /\
  run_result (ensure_guild_exists 5 "g") s2 = Ok true /\
  has_document s3 "5" /\
  stored s3 "guilds" = Some (PList [PStr "15"]).
Proof.
  intros s1 s2 s3. repeat split; vm_compute; eauto.
Qed.

(** Against C4 as stated: guild 7 is documented and indexed, the bot is
    now in guild 8 only; after [sync_guilds] the document of guild 7 is
    still stored and the index no longer lists it. *)
Lemma sync_guilds_forgets_documented_guild :
  let st := run_state (ensure_guild_exists 7 "old") boot in
  let st' := run_state (sync_guilds [discord.mkGuild 8 "new"]) st in
  (has_document st "7" /\ listed st "7") /\
  run_result (sync_guilds [discord.mkGuild 8 "new"]) st = Ok (sync_report 1 0) /\
  ~ index_invariant st'.
Proof.
  intros st st'.
  assert (Hbefore : stored st "guilds" = Some (PList [PStr "7"]))
    by (vm_compute; reflexivity).
  assert (Hafter : stored st' "guilds" = Some (PList [PStr "8"]))
    by (vm_compute; reflexivity).
  assert (Hdoc : has_document st' "7") by (vm_compute; eauto).
  split; [split|split].
  - vm_compute. eauto.
  - exists [PStr "7"]. split; [exact Hbefore|left; reflexivity].
  - vm_compute. reflexivity.
  - intros Hinv. destruct (Hinv "7" Hdoc) as (l & Hl & Hin).
    rewrite Hafter in Hl. inversion Hl; subst l.
    destruct Hin as [Heq|[]]. discriminate Heq.
Qed.

Lemma archive_documents (index : list value) (docs : list (string * value))
  (id : string) :
  has_document (archive index docs) id -> In id (map fst docs).
Proof.
  unfold has_document, archive. simpl store.
  rewrite lookup_insert_ne by (apply not_eq_sym, document_key_not_index).
  intros [text Htext]. apply elem_of_list_to_map_2 in Htext.
  apply list_elem_of_In, in_map_iff in Htext as (kv & Heq & Hin).
  inversion Heq as [[Hid Htxt]]. apply in_map_iff. exists kv. auto.
Qed.

(** A run of C4 as amended. The store holds documents for guilds 1 and
    2 and an index that lists guild 1 only, as after an index write
    that failed; the manager has been initialized, so the index is in
    the cache as a list. The invariant does not hold; a [sync_guilds]
    over both guilds restores it, and so does an [ensure_guild_exists]
    for guild 2. *)
Lemma index_after_sync_and_ensure_witness :
  let st := run_state initialize
              (archive [PStr "1"] [("1", PDict [("id", PStr "1")]);
                                   ("2", PDict [("id", PStr "2")])]) in
  let bot_guilds := [discord.mkGuild 1 "one"; discord.mkGuild 2 "two"] in
  ~ index_invariant st /\
  (exists st',
     sync_guilds bot_guilds st = (Ok (sync_report 2 0), st') /\
     stored st' "guilds" = Some (PList [PStr "1"; PStr "2"]) /\
     index_invariant st') /\
  (exists st',
     ensure_guild_exists 2 "two" st = (Ok true, st') /\
     listed st' "2" /\
     index_invariant st').
Proof.
  intros st bot_guilds.
  assert (Hnet : net st = []) by (vm_compute; reflexivity).
  assert (Hindex : stored st "guilds" = Some (PList [PStr "1"]))
    by (vm_compute; reflexivity).
  assert (Hdocs : forall id, has_document st id -> id = "1" \/ id = "2").
  { intros id Hhas.
    assert (Hstore : store st
                     = store (archive [PStr "1"]
                                [("1", PDict [("id", PStr "1")]);
                                 ("2", PDict [("id", PStr "2")])]))
      by (vm_compute; reflexivity).
    unfold has_document in Hhas. rewrite Hstore in Hhas.
    apply archive_documents in Hhas.
    destruct Hhas as [<-|[<-|[]]]; auto. }
  destruct (index_after_sync_and_ensure st Hnet) as [Hsync Hensure].
  split; [|split].
  - intros Hinv. destruct (Hinv "2") as (l & Hl & Hin).
    + vm_compute. eauto.
    + rewrite Hindex in Hl. inversion Hl; subst l.
      destruct Hin as [Heq|[]]. discriminate Heq.
  - destruct (Hsync bot_guilds) as (st' & Hrun & Hidx & Hinv);
      [vm_compute; reflexivity|].
    exists st'. split; [exact Hrun|]. split; [exact Hidx|].
    apply Hinv. intros id Hhas.
    destruct (Hdocs id Hhas) as [->| ->];
      [left; reflexivity|right; left; reflexivity].
  - destruct (Hensure 2%Z "two" [PStr "1"]) as (st' & Hrun & Hlisted & Hinv).
    + vm_compute. reflexivity.
    + apply listed_stored, Hindex.
    + vm_compute. reflexivity.
    + exists st'. split; [exact Hrun|]. split; [exact Hlisted|].
      apply Hinv. intros id Hid Hhas.
      destruct (Hdocs id Hhas) as [->| ->].
      * apply (listed_stored _ _ Hindex). left. reflexivity.
      * destruct Hid. vm_compute. reflexivity.
Defined.



Example cleanup_old_data_keeps_recent_log_run :
  let st := archive [PStr "1"]
              [("1", PDict [("id", PStr "1");
                            ("logs", PList [old_log; new_log])])] in
  run_result (cleanup_old_data 30) st = Ok true /\
  stored (run_state (cleanup_old_data 30) st) "guild:1"
    = Some (PDict [("id", PStr "1"); ("logs", PList [new_log])]).
Proof. intros st. split; vm_compute; reflexivity. Qed.

Example cleanup_old_data_keeps_recent_log :
  cleaned 63842256000000000 march_first
    [("id", PStr "1"); ("logs", PList [old_log; new_log])]
  = [("id", PStr "1"); ("logs", PList [new_log])].
Proof. vm_compute. reflexivity. Qed.

(** C8 (the code departs from the claim). The store is unreachable when
    the document of guild 1 is posted: the document is not created, the
    loop goes on to post the index, and the report reads one success and
    no failure, where the claim has the failure counted. *)
Theorem sync_guilds_counts_failed_write_as_success :
  let st := set_net [Served; Unreachable] boot in
  let st' := run_state (sync_guilds [discord.mkGuild 1 "a"]) st in
  run_result (sync_guilds [discord.mkGuild 1 "a"]) st = Ok (sync_report 1 0) /\
  trace st' = [GET "guild:1";
               POST "guild:1" (json_dumps (new_guild_data 1 "a" march_first));
               POST "guilds" (json_dumps (PList [PStr "1"]))] /\
  ~ has_document st' "1".
Proof.
  intros st st'. split; [vm_compute; reflexivity|].
  split; [vm_compute; reflexivity|].
  intros [text Htext]. vm_compute in Htext. discriminate Htext.
Qed.

(** Two current guilds, one already documented, on a healthy store: one
    document is posted and both guilds are reported as successes. *)
Lemma sync_guilds_report_witness :
  let st := archive [PStr "7"] [("7", PDict [("id", PStr "7")])] in
  let bot_guilds := [discord.mkGuild 7 "old"; discord.mkGuild 8 "new"] in
  exists st',
    sync_guilds bot_guilds st = (Ok (sync_report 2 0), st') /\
    last (trace st') =
      Some (POST "guilds" (json_dumps (PList [PStr "7"; PStr "8"]))) /\
    document_posts (trace st') = 1%nat.
Proof.
  intros st bot_guilds.
  destruct (sync_guilds_report bot_guilds st) as (st' & Hrun & Hlast & Hposts).
  exists st'. split; [exact Hrun|]. split; [exact Hlast|].
  rewrite Hposts.
  - vm_compute. reflexivity.
  - reflexivity.
  - apply (bool_decide_unpack _). vm_compute. exact I.
Defined.
End Runs.

(** * Further properties of the manager *)

Section ReadsAndWrites.
Context `{PyRuntime}.

Lemma read_frame (key : string) (st : state) :
  exists v st',
    _read_data key st = (Ok v, st') /\
    store st' = store st /\
    _initialized st' = _initialized st /\
    locks st' = locks st /\
    clock st' = clock st /\
    (match _cache st !! key with
     | Some _ => st' = st
     | None => trace st' = trace st ++ [GET key] /\ net st' = tail (net st)
     end) /\
    (forall k, k <> key -> _cache st' !! k = _cache st !! k) /\
    (v <> PNone -> _cache st' !! key = Some v).
Proof.
  destruct (_cache st !! key) as [v|] eqn:Hc.
  - exists v, st. rewrite (read_hit _ _ _ Hc). repeat split; auto.
  - rewrite read_miss by assumption.
    destruct (fate st), (store st !! key) as [text|]; eexists; eexists;
      (split; [reflexivity|]); simpl; repeat split; auto;
      try (intros k Hk; apply lookup_insert_ne; congruence);
      try (intros Hv; congruence).
    intros _. apply lookup_insert_eq.
Qed.

(** X1. [_read_data] never raises and never changes the store. On a
    cache hit it returns the cached value and leaves the state as it
    is. On a miss it sends one GET and returns the decoded body when
    the request is served and the key is stored, [None] otherwise. It
    caches nothing under another key, and what it returns other than
    [None] is in the cache afterwards. *)
Theorem read_data_frame (key : string) (st : state) :
  exists v st',
    _read_data key st = (Ok v, st') /\
    store st' = store st /\
    (match _cache st !! key with
     | Some cached => v = cached /\ st' = st
     | None =>
         v = match fate st, store st !! key with
             | Served, Some text => decode text
             | _, _ => PNone
             end /\
         trace st' = trace st ++ [GET key] /\ net st' = tail (net st)
     end) /\
    (forall k, k <> key -> _cache st' !! k = _cache st !! k) /\
    (v <> PNone -> _cache st' !! key = Some v).
Proof.
  destruct (_cache st !! key) as [cached|] eqn:Hc.
  - exists cached, st. rewrite (read_hit _ _ _ Hc). repeat split; auto.
  - rewrite read_miss by assumption.
    destruct (fate st), (store st !! key) as [text|]; eexists; eexists;
      (split; [reflexivity|]); simpl; repeat split; auto;
      try (intros k Hk; apply lookup_insert_ne; congruence);
      try (intros Hv; congruence).
    intros _. apply lookup_insert_eq.
Qed.

(** X2. [_write_data] never raises and sends exactly one POST with the
    payload. When it returns [True] the store holds the payload and the
    cache its text; when it returns [False] cache and store are as
    before. No other key is touched. *)
Theorem write_data_frame (key : string) (data : value) (st : state) :
  exists b st',
    _write_data key data st = (Ok b, st') /\
    trace st' = trace st ++ [POST key (payload data)] /\
    (if b
     then store st' !! key = Some (payload data) /\
          _cache st' !! key = Some (PStr (payload data))
     else store st' = store st /\ _cache st' = _cache st) /\
    (forall k, k <> key ->
       store st' !! k = store st !! k /\ _cache st' !! k = _cache st !! k).
Proof.
  rewrite write_eq.
  destruct (fate st); eexists; eexists; (split; [reflexivity|]); simpl;
    repeat split; auto; try apply lookup_insert_eq;
    apply lookup_insert_ne; congruence.
Qed.

Lemma write_frame (key : string) (data : value) (st : state) :
  exists b st',
    _write_data key data st = (Ok b, st') /\
    net st' = tail (net st) /\
    _initialized st' = _initialized st /\
    locks st' = locks st /\
    clock st' = clock st /\
    (b = true -> _cache st' !! key = Some (PStr (payload data))) /\
    (forall k, k <> key ->
       store st' !! k = store st !! k /\ _cache st' !! k = _cache st !! k).
Proof.
  rewrite write_eq.
  destruct (fate st); eexists; eexists; (split; [reflexivity|]); simpl;
    repeat split; auto; try discriminate; try (intros _; apply lookup_insert_eq);
    apply lookup_insert_ne; congruence.
Qed.

Lemma close_then_read (key : string) (v : value) (st st1 : state) :
  _write_data key v st = (Ok true, st1) ->
  net st1 = [] ->
  exists st3, (close;; _read_data key) st1 = (Ok (decode (payload v)), st3).
Proof.
  intros Hw Hnet. rewrite write_eq in Hw.
  destruct (fate st); inversion Hw; subst st1.
  rewrite bind_eq.
  change (close (wrote key (payload v) st))
    with (Ok tt, set_initialized false (set_cache ∅ (wrote key (payload v) st))).
  cbv beta iota.
  rewrite read_miss by (simpl; apply lookup_empty).
  unfold fate. simpl in *. rewrite Hnet. simpl. rewrite lookup_insert_eq.
  eexists. reflexivity.
Qed.

(** X3. What was written is what a new reader finds: after a successful
    write and [close], a read on a healthy network returns the decoded
    payload; this is the written value itself when it is not a string
    and the runtime's JSON round trip holds for it. *)
Theorem write_close_read (key : string) (v : value) (st st1 : state) :
  _write_data key v st = (Ok true, st1) ->
  net st1 = [] ->
  exists st3,
    (close;; _read_data key) st1 = (Ok (decode (payload v)), st3) /\
    ((forall s, v <> PStr s) -> json_loads (json_dumps v) = Some v ->
     decode (payload v) = v).
Proof.
  intros Hw Hnet.
  destruct (close_then_read key v st st1 Hw Hnet) as (st3 & Hrun).
  exists st3. split; [exact Hrun|].
  intros Hv Hround. unfold decode.
  destruct v; simpl; try (rewrite Hround; reflexivity).
  exfalso. eapply Hv. reflexivity.
Qed.

(** X4. A string is stored as it is, not as a JSON string: when its text
    is valid JSON, a new reader gets the decoded JSON value, not the
    string. *)
Theorem written_string_is_read_as_json (key s : string) (w : value)
  (st st1 : state) :
  _write_data key (PStr s) st = (Ok true, st1) ->
  net st1 = [] ->
  json_loads s = Some w ->
  exists st3, (close;; _read_data key) st1 = (Ok w, st3).
Proof.
  intros Hw Hnet Hjson.
  destruct (close_then_read key (PStr s) st st1 Hw Hnet) as (st3 & Hrun).
  exists st3. rewrite Hrun. simpl. unfold decode. rewrite Hjson. reflexivity.
Qed.

End ReadsAndWrites.

Section Lifecycle.
Context `{PyRuntime}.

Lemma initialize_started (st : state) :
  _initialized st = true -> initialize st = (Ok true, st).
Proof.
  intros Hs. unfold initialize, try_except. rewrite bind_eq.
  unfold gets. rewrite Hs. reflexivity.
Qed.

(** The path of [initialize] on a manager that is not initialized. *)
Lemma initialize_fresh (st : state) :
  _initialized st = false ->
  exists b st',
    initialize st = (Ok b, st') /\
    _initialized st' = b /\
    (b = true -> exists v, v <> PNone /\ _cache st' !! "guilds" = Some v).
Proof.
  intros Hs. unfold initialize, try_except. rewrite bind_eq.
  unfold gets at 1. rewrite Hs. rewrite bind_eq.
  destruct (read_frame "guilds" st)
    as (v & s1 & Hr1 & _ & Hi1 & _ & _ & _ & _ & Hc1).
  rewrite Hr1. rewrite bind_eq.
  assert (Hcreated : exists b s2,
            match v with
            | PNone => _write_data "guilds" (PList [])
            | _ => mret true
            end s1 = (Ok b, s2) /\ _initialized s2 = false).
  { destruct v;
      try (exists true, s1; split; [reflexivity|congruence]).
    destruct (write_frame "guilds" (PList []) s1)
      as (b & s2 & Hw & _ & Hi2 & _).
    exists b, s2. split; [exact Hw|congruence]. }
  destruct Hcreated as (b & s2 & Hcreated & Hi2). rewrite Hcreated.
  destruct b; cbn [negb].
  - rewrite bind_eq.
    destruct (read_frame "guilds" s2)
      as (w & s3 & Hr3 & _ & Hi3 & _ & _ & _ & _ & Hc3).
    rewrite Hr3.
    destruct w; try (eexists; eexists; split; [reflexivity|];
                     split; [reflexivity|]; intros _; eexists;
                     split; [|simpl; apply Hc3; discriminate]; discriminate).
    exists false, s3. split; [reflexivity|].
    split; [congruence|discriminate].
  - exists false, s2. split; [reflexivity|]. split; [exact Hi2|discriminate].
Qed.

(** X5. [initialize] never raises, and its result is the flag it
    leaves; once it has returned [True], calling it again returns [True]
    at once, without a request, whatever the network. *)
Theorem initialize_result_is_flag (st : state) :
  exists b st',
    initialize st = (Ok b, st') /\
    _initialized st' = b /\
    (b = true ->
     forall n, initialize (set_net n st') = (Ok true, set_net n st')).
Proof.
  assert (Hagain : forall st', _initialized st' = true ->
            forall n, initialize (set_net n st') = (Ok true, set_net n st')).
  { intros st' Hs n. apply initialize_started. exact Hs. }
  destruct (_initialized st) eqn:Hs.
  - exists true, st. rewrite initialize_started by assumption. auto.
  - destruct (initialize_fresh st Hs) as (b & st' & Hrun & Hflag & _).
    exists b, st'. split; [exact Hrun|]. split; [exact Hflag|].
    intros ->. apply Hagain, Hflag.
Qed.

(** X6. The health check does not probe the store once [initialize]
    has run: the index is in the cache, and [check_connection] returns
    [True] without a request, whatever the network; after [close] it
    returns [False], again without a request. *)
Theorem check_connection_after_initialize (st st' : state) :
  _initialized st = false ->
  initialize st = (Ok true, st') ->
  forall n,
    check_connection (set_net n st') = (Ok true, set_net n st') /\
    (close;; check_connection) (set_net n st')
      = (Ok false, set_initialized false (set_cache ∅ (set_net n st'))).
Proof.
  intros Hs Hrun n.
  destruct (initialize_fresh st Hs) as (b & st1 & Hrun' & Hflag & Hcache).
  rewrite Hrun in Hrun'. injection Hrun' as <- <-.
  destruct (Hcache eq_refl) as (v & Hv & Hc).
  split.
  - unfold check_connection, try_except. rewrite bind_eq.
    unfold gets. change (_initialized (set_net n st')) with (_initialized st').
    rewrite Hflag. cbn [negb].
    rewrite bind_eq, (read_hit "guilds" v) by exact Hc.
    destruct v; try reflexivity. congruence.
  - reflexivity.
Qed.

End Lifecycle.

Section DocumentsAgain.
Context `{PyRuntime}.

(** X7. A failed write does not undo the assignment [update_section]
    made into the cached document: the call returns [False], the store
    is as before, and every later read of the section in this process
    returns the new data, without a request. *)
Theorem failed_update_section_stays_in_cache (guild_id : value)
  (section : string) (data : value) (doc : list (string * value))
  (st : state) :
  _cache st !! guild_key guild_id = Some (PDict doc) ->
  doc <> [] ->
  fate st <> Served ->
  exists st',
    update_section guild_id section data st = (Ok false, st') /\
    store st' = store st /\
    forall n, get_section guild_id section (set_net n st')
              = (Ok data, set_net n st').
Proof.
  intros Hc Hdoc Hfate.
  assert (Htruthy : Py.truthy (PDict doc) = true)
    by (destruct doc; [congruence|reflexivity]).
  unfold update_section. cbv zeta. unfold get_guild_data at 1.
  rewrite !bind_eq, (read_hit _ _ _ Hc), ret_eq.
  unfold Py.or_. rewrite Htruthy. rewrite bind_eq, lift_eq.
  simpl Py.setitem. cbv iota. rewrite bind_eq, Htruthy, cache_set_eq.
  rewrite write_eq.
  change (fate (set_cache _ st)) with (fate st).
  destruct (fate st); [congruence| |];
    (eexists; split; [reflexivity|]; split; [reflexivity|]; intros n;
     unfold get_section, get_guild_data; rewrite !bind_eq;
     erewrite read_hit by (simpl; apply lookup_insert_eq);
     rewrite ret_eq, lift_eq; unfold Py.or_; rewrite dict_set_truthy;
     simpl; rewrite dict_get_set_eq; reflexivity).
Qed.

(** X8. The two readers of xp data agree: whenever [get_user_xp] returns,
    [get_all_xp] returns a mapping, and the record returned is the
    user's entry in that mapping, [None] when the user has none. *)
Theorem get_user_xp_in_get_all_xp (guild_id : value) (user_id : string)
  (r : value) (st st' : state) :
  get_user_xp guild_id user_id st = (Ok r, st') ->
  exists d,
    get_all_xp guild_id st = (Ok (PDict d), st') /\
    r = default PNone (Py.dict_get d user_id).
Proof.
  unfold get_user_xp, get_all_xp. rewrite !bind_eq.
  destruct (get_section guild_id "xp_users" st) as [[held|e] st0];
    [|discriminate].
  rewrite lift_eq, ret_eq.
  destruct held as [| | | | |d]; try discriminate. simpl.
  intros Hrun. inversion Hrun; subst. exists d.
  split; [|reflexivity]. destruct d; reflexivity.
Qed.

(** X9. A guild document as [ensure_guild_exists] and [sync_guilds] create
    it has a mapping under [logs], not a list: [add_log] on it raises
    [AttributeError] and sends no write. *)
Theorem add_log_on_new_guild_raises (guild_id : value)
  (log_data : list (string * value)) (id : Z) (name : string) (joined : Z)
  (st : state) :
  net st = [] ->
  visible st (guild_key guild_id) = new_guild_data id name joined ->
  exists st',
    add_log guild_id log_data st = (Raise AttributeError, st') /\
    store st' = store st /\
    document_posts (trace st') = document_posts (trace st).
Proof.
  intros Hnet Hvis. unfold add_log.
  rewrite bind_eq, get_section_healthy by assumption.
  rewrite Hvis. simpl. rewrite bind_eq. unfold utcnow, gets.
  rewrite bind_eq, lift_eq. simpl.
  eexists. split; [reflexivity|].
  split; [apply after_read_store|apply after_read_posts].
Qed.

Lemma increment_stat_true (bot_id : Z) (stat_name : string) (st st' : state) :
  increment_stat bot_id stat_name st = (Ok true, st') ->
  exists d, _cache st' !! stats_key bot_id = Some (PStr (json_dumps (PDict d))).
Proof.
  unfold increment_stat, try_except. rewrite bind_eq.
  destruct (_read_data (stats_key bot_id) st) as [[held|e] s1];
    [|discriminate].
  cbv zeta. rewrite bind_eq, lift_eq.
  destruct (Py.or_ held (PDict [])) as [| | | | |d]; try discriminate.
  simpl Py.get. cbv iota. rewrite bind_eq, lift_eq.
  destruct (add_one _) as [count'|e]; [|discriminate].
  rewrite bind_eq, lift_eq. simpl Py.setitem. cbv iota. rewrite bind_eq.
  match goal with
  | |- context [(if ?b then _ else _) s1] => destruct b
  end; [rewrite cache_set_eq|rewrite ret_eq];
    rewrite write_eq;
    match goal with |- context [fate ?s] => destruct (fate s) end;
    intros Hrun; inversion Hrun; subst st';
    eexists; simpl; apply lookup_insert_eq.
Qed.

(** X10. On a healthy store, with the bot's statistics read as a mapping
    (or absent) and the counter an integer (or absent, counted as 0),
    [increment_stat] stores the mapping with that counter one higher and
    every other counter as it was. *)
Theorem increment_stat_adds_one (bot_id : Z) (stat_name : string)
  (d : list (string * value)) (count : Z) (st : state) :
  net st = [] ->
  Py.or_ (visible st (stats_key bot_id)) (PDict []) = PDict d ->
  default (PInt 0) (Py.dict_get d stat_name) = PInt count ->
  exists st' d',
    increment_stat bot_id stat_name st = (Ok true, st') /\
    store st' !! stats_key bot_id = Some (json_dumps (PDict d')) /\
    Py.dict_get d' stat_name = Some (PInt (count + 1)) /\
    forall other, other <> stat_name ->
      Py.dict_get d' other = Py.dict_get d other.
Proof.
  intros Hnet Hd Hcount. unfold increment_stat, try_except.
  rewrite bind_eq, read_healthy by assumption. cbv zeta.
  rewrite Hd. rewrite bind_eq, lift_eq. simpl Py.get. cbv iota.
  rewrite Hcount. rewrite bind_eq, lift_eq. simpl add_one. cbv iota.
  rewrite bind_eq, lift_eq. simpl Py.setitem. cbv iota. rewrite bind_eq.
  assert (Hnet1 : net (after_read (stats_key bot_id) st) = [])
    by (apply after_read_net, Hnet).
  destruct (Py.truthy (visible st (stats_key bot_id)));
    [rewrite cache_set_eq|rewrite ret_eq];
    rewrite write_healthy by exact Hnet1;
    (eexists; exists (Py.dict_set d stat_name (PInt (count + 1)));
     split; [reflexivity|]; split; [simpl; apply lookup_insert_eq|];
     split; [apply dict_get_set_eq|];
     intros other Hne; apply dict_get_set_ne; congruence).
Qed.

(** X11. After an [increment_stat] that succeeded, every further
    [increment_stat] for that bot in the same process returns [False]
    and does nothing: it finds the JSON text of the statistics in the
    cache and calls [.get] on a string. *)
Theorem increment_stat_again_fails (bot_id : Z) (first second : string)
  (st st' : state) :
  (forall d, json_dumps (PDict d) <> "") ->
  increment_stat bot_id first st = (Ok true, st') ->
  forall n, increment_stat bot_id second (set_net n st')
            = (Ok false, set_net n st').
Proof.
  intros Hdumps Hrun n. apply increment_stat_true in Hrun as (d & Hc).
  unfold increment_stat, try_except.
  rewrite bind_eq, (read_hit _ (PStr (json_dumps (PDict d))))
    by exact Hc.
  cbv zeta. unfold Py.or_. simpl Py.truthy.
  destruct (String.eqb (json_dumps (PDict d)) "") eqn:E.
  - apply String.eqb_eq in E. destruct (Hdumps _ E).
  - reflexivity.
Qed.

End DocumentsAgain.

Section Scopes.
Context `{PyRuntime}.

(** X12. A transaction whose body raised writes nothing: leaving the
    scope sends no request, leaves cache and store as they are, and
    frees the lock. *)
Theorem transaction_abort_writes_nothing (self : DatabaseTransaction)
  (e : exn) (st : state) :
  locks st !! _lock self = Some true ->
  exists st',
    __aexit__ self (Some e) st = (Ok tt, st') /\
    trace st' = trace st /\ _cache st' = _cache st /\ store st' = store st /\
    locks st' !! _lock self = Some false.
Proof.
  intros Hheld. unfold __aexit__, try_finally, release. simpl.
  rewrite Hheld. eexists. split; [reflexivity|]. simpl.
  repeat split. apply list_lookup_insert_eq.
  apply lookup_lt_Some in Hheld. exact Hheld.
Qed.

Lemma aexit_commit_any_network (self : DatabaseTransaction) (st : state) :
  locks st !! _lock self = Some true ->
  exists st',
    __aexit__ self None st = (Ok tt, st') /\
    trace st' = trace st ++ map post_of (changes self) /\
    locks st' !! _lock self = Some false.
Proof.
  intros Hheld. unfold __aexit__, try_finally.
  destruct (commit_trace (changes self) st) as (st1 & Hrun & Htrace & Hlocks).
  change (for_each (changes self) _ st)
    with (for_each (changes self) commit_one st).
  rewrite Hrun. unfold release. rewrite Hlocks, Hheld.
  eexists. split; [reflexivity|]. simpl. split; [exact Htrace|].
  apply list_lookup_insert_eq.
  apply lookup_lt_Some in Hheld. exact Hheld.
Qed.

(** X13. A clean exit goes through the whole buffer whatever the store
    answers: one POST per buffered change, in insertion order, a failed
    write neither raising nor stopping the ones after it, and the lock
    is free at the end. *)
Theorem transaction_commit_survives_failed_writes
  (self : DatabaseTransaction) (st : state) :
  locks st !! _lock self = Some true ->
  exists st',
    __aexit__ self None st = (Ok tt, st') /\
    trace st' = trace st ++ map post_of (changes self) /\
    locks st' !! _lock self = Some false.
Proof. apply aexit_commit_any_network. Qed.

(** X14. One transaction object guards its own scope: once entered, a
    second [__aenter__] on it has to wait; after [__aexit__], clean or
    not and whatever the network, it can be entered again. *)
Theorem transaction_reentry (self : DatabaseTransaction)
  (exc_type : option exn) (st s1 : state) :
  __aenter__ self st = Some s1 ->
  __aenter__ self s1 = None /\
  exists r s2,
    __aexit__ self exc_type s1 = (r, s2) /\ is_Some (__aenter__ self s2).
Proof.
  unfold __aenter__ at 1.
  destruct (locks st !! _lock self) as [[|]|] eqn:Hfree; try discriminate.
  intros Hin. inversion Hin; subst s1. clear Hin.
  assert (Hheld : locks (set_locks (<[_lock self := true]> (locks st)) st)
                    !! _lock self = Some true).
  { simpl. apply list_lookup_insert_eq. apply lookup_lt_Some in Hfree.
    exact Hfree. }
  split.
  - unfold __aenter__. rewrite Hheld. reflexivity.
  - assert (Hexit : exists s2,
              __aexit__ self exc_type
                (set_locks (<[_lock self := true]> (locks st)) st) = (Ok tt, s2) /\
              locks s2 !! _lock self = Some false).
    { destruct exc_type as [e|].
      - unfold __aexit__, try_finally, release. simpl mret.
        rewrite ret_eq, Hheld. eexists. split; [reflexivity|]. simpl.
        apply list_lookup_insert_eq. rewrite length_insert.
        apply lookup_lt_Some in Hfree. exact Hfree.
      - destruct (aexit_commit_any_network self _ Hheld) as (s2 & Hrun & _ & Hl).
        eauto. }
    destruct Hexit as (s2 & Hrun & Hl). exists (Ok tt), s2.
    split; [exact Hrun|]. unfold __aenter__. rewrite Hl. eauto.
Qed.

End Scopes.

Section Operations.
Context `{PyRuntime}.

Lemma acquire_free (l : nat) (st : state) :
  locks st !! l = Some false ->
  acquire l st = Some (set_locks (<[l := true]> (locks st)) st).
Proof. intros Hfree. unfold acquire. rewrite Hfree. reflexivity. Qed.

(** The run of an operation under a lock that is free, any other
    registered lock being free too. *)
Lemma guarded_run (l : nat) (func : M value) (st : state) :
  keeps_locks func ->
  locks st !! l = Some false ->
  exists st2,
    try_finally (try_except func (fun _ => mret PNone)) (release l)
      (set_locks (<[l := true]> (locks st)) st)
      = (Ok (neutral (func (set_locks (<[l := true]> (locks st)) st)).1), st2) /\
    locks st2 !! l = Some false /\
    forall i, i <> l -> locks st !! i = Some false ->
              locks st2 !! i = Some false.
Proof.
  intros Hkeeps Hfree.
  set (s1 := set_locks (<[l := true]> (locks st)) st).
  assert (Hlt : l < length (locks st)) by (eapply lookup_lt_Some; eauto).
  assert (Hheld : locks s1 !! l = Some true)
    by (apply list_lookup_insert_eq; exact Hlt).
  unfold try_finally, try_except, release.
  destruct (func s1) as [r s2] eqn:Hrun.
  assert (Hheld2 : locks s2 !! l = Some true)
    by (eapply Hkeeps; eauto).
  assert (Hlt2 : l < length (locks s2)) by (eapply lookup_lt_Some; eauto).
  assert (Hothers : forall i, i <> l -> locks st !! i = Some false ->
            locks s2 !! i = Some false).
  { intros i Hne Hi. eapply Hkeeps; [exact Hrun|].
    unfold s1. simpl. rewrite list_lookup_insert_ne by congruence. exact Hi. }
  destruct r as [v|e]; simpl; rewrite ?ret_eq, Hheld2;
    (eexists; split; [reflexivity|]; simpl; split;
     [apply list_lookup_insert_eq; exact Hlt2
     |intros i Hne Hi; rewrite list_lookup_insert_ne by congruence;
      apply Hothers; assumption]).
Qed.

(** X15. With no operation running, [safe_operation] does not wait and
    does not raise: it returns what the operation returned, or [None]
    when the operation raised, and its lock is free again afterwards.
    The registry then has a lock under the name, and every name that had
    a lock keeps the same one. *)
Theorem safe_operation_releases (operation_name : string) (func : M value)
  (self : manager) :
  registry_free self ->
  keeps_locks func ->
  exists r self',
    safe_operation operation_name func self = Some (Ok r, self') /\
    (exists held, r = neutral (func (set_locks held (process self))).1) /\
    registry_free self' /\
    is_Some (_operation_locks self' !! operation_name) /\
    forall name l, _operation_locks self !! name = Some l ->
                   _operation_locks self' !! name = Some l.
Proof.
  intros Hfree Hkeeps. unfold safe_operation.
  destruct (_operation_locks self !! operation_name) as [l|] eqn:Hreg.
  - (* the name has its lock *)
    pose proof (Hfree _ _ Hreg) as Hl.
    rewrite (acquire_free _ _ Hl).
    destruct (guarded_run l func (process self) Hkeeps Hl)
      as (st2 & Hrun & Hl2 & Hothers).
    rewrite Hrun. eexists. eexists. split; [reflexivity|].
    split; [eexists; reflexivity|]. split; [|split].
    + intros name l' Hname. simpl in *.
      destruct (decide (l' = l)) as [->|Hne]; [exact Hl2|].
      apply Hothers; [exact Hne|]. eapply Hfree; eauto.
    + simpl. rewrite Hreg. eauto.
    + intros name l' Hname. exact Hname.
  - (* a new lock is registered *)
    set (l := length (locks (process self))).
    set (s0 := (new_lock (process self)).2).
    assert (Hl : locks s0 !! l = Some false).
    { unfold s0, new_lock, l. simpl.
      rewrite lookup_app_r by lia. rewrite Nat.sub_diag. reflexivity. }
    rewrite (acquire_free _ _ Hl).
    destruct (guarded_run l func s0 Hkeeps Hl) as (st2 & Hrun & Hl2 & Hothers).
    rewrite Hrun. eexists. eexists. split; [reflexivity|].
    split; [eexists; reflexivity|]. split; [|split].
    + intros name l' Hname. simpl in *.
      destruct (decide (operation_name = name)) as [->|Hne].
      * rewrite lookup_insert_eq in Hname. inversion Hname; subst l'. exact Hl2.
      * rewrite lookup_insert_ne in Hname by assumption.
        pose proof (Hfree _ _ Hname) as Hl'.
        assert (l' < l) by (eapply lookup_lt_Some; eauto).
        apply Hothers; [lia|].
        unfold s0, new_lock. simpl. rewrite lookup_app_l by (fold l; lia).
        exact Hl'.
    + simpl. rewrite lookup_insert_eq. eauto.
    + intros name l' Hname. simpl.
      rewrite lookup_insert_ne; [exact Hname|]. congruence.
Qed.

(** X16. A new guild document is created with default settings: every
    setting of its [whisper_config], [logs], [xp_settings] and [roles]
    sections has the value [get_defaults] gives for it; [get_defaults]
    returns [None] for a name outside these four. *)
Theorem new_guild_settings_are_defaults (guild_id : Z) (guild_name : string)
  (now : Z) (doc d : list (string * value)) (section k : string) (v : value) :
  new_guild_data guild_id guild_name now = PDict doc ->
  Py.dict_get doc section = Some (PDict d) ->
  Py.dict_get d k = Some v ->
  (exists dd, get_defaults section = PDict dd /\ Py.dict_get dd k = Some v) /\
  (forall other,
     other <> "whisper_config" -> other <> "logs" ->
     other <> "xp_settings" -> other <> "roles" ->
     get_defaults other = PNone).
Proof.
  intros Hdoc Hsection Hk. split.
  - unfold new_guild_data in Hdoc. injection Hdoc as <-.
    cbn [Py.dict_get] in Hsection.
    repeat match type of Hsection with
           | context [String.eqb ?a section] =>
               destruct (String.eqb a section) eqn:E;
               [apply String.eqb_eq in E; subst section|clear E]
           end;
      try discriminate Hsection;
      injection Hsection as <-; cbn [Py.dict_get] in Hk;
      repeat match type of Hk with
             | context [String.eqb ?a k] =>
                 destruct (String.eqb a k) eqn:E;
                 [apply String.eqb_eq in E; subst k|clear E]
             end;
      try discriminate Hk;
      injection Hk as <-; eexists; split; reflexivity.
  - intros other H1 H2 H3 H4. unfold get_defaults, defaults.
    cbn [Py.dict_get].
    repeat match goal with
           | |- context [String.eqb ?a other] =>
               destruct (String.eqb a other) eqn:E;
               [apply String.eqb_eq in E; congruence|clear E]
           end.
    reflexivity.
Qed.

End Operations.

Section IndexAgain.
Context `{PyRuntime}.

(** X17. A failed write of the index is never made up for: when the
    cached index is a list without the id and its write fails,
    [ensure_guild_exists] still returns [True] and the store is as
    before; the id stays in the cached list, so every later call for
    the guild returns [True] without a request and the stored index
    never receives the id. *)
Theorem ensure_guild_exists_does_not_retry (guild_id : Z)
  (guild_name : string) (l : list value) (d : value) (st : state) :
  _cache st !! "guilds" = Some (PList l) ->
  l <> [] ->
  existsb (Py.is_str (pretty guild_id)) l = false ->
  _cache st !! guild_key (PInt guild_id) = Some d ->
  Py.truthy d = true ->
  fate st <> Served ->
  exists st1,
    ensure_guild_exists guild_id guild_name st = (Ok true, st1) /\
    store st1 = store st /\
    forall n, ensure_guild_exists guild_id guild_name (set_net n st1)
              = (Ok true, set_net n st1).
Proof.
  intros Hindex Hl Hout Hdoc Htruthy Hfate.
  assert (Hheld : Py.truthy (PList l) = true)
    by (destruct l; [congruence|reflexivity]).
  assert (Hor : forall v, Py.truthy v = true -> forall w, Py.or_ v w = v).
  { intros v E w. unfold Py.or_. rewrite E. reflexivity. }
  set (listed := PList (l ++ [PStr (pretty guild_id)])).
  set (st1 := sent (POST "guilds" (payload listed))
                (set_cache (<["guilds" := listed]> (_cache st)) st)).
  assert (Hfirst : ensure_guild_exists guild_id guild_name st = (Ok true, st1)).
  { unfold ensure_guild_exists, try_except.
    rewrite bind_eq, (read_hit _ _ _ Hindex). cbv zeta.
    rewrite (Hor _ Hheld).
    unfold get_guild_data at 1.
    rewrite !bind_eq, (read_hit _ _ _ Hdoc), ret_eq, (Hor _ Htruthy), Htruthy.
    cbn [negb]. rewrite bind_eq, ret_eq, bind_eq, lift_eq. simpl Py.contains.
    cbv iota. rewrite Hout. cbn [negb].
    rewrite !bind_eq, lift_eq. simpl Py.append. cbv iota. fold listed.
    rewrite bind_eq, Hheld, cache_set_eq, bind_eq, write_eq.
    change (fate (set_cache _ st)) with (fate st).
    destruct (fate st); [congruence| |]; reflexivity. }
  assert (Hagain : forall s,
            _cache s !! "guilds" = Some listed ->
            _cache s !! guild_key (PInt guild_id) = Some d ->
            ensure_guild_exists guild_id guild_name s = (Ok true, s)).
  { intros s Hi Hd.
    assert (Hheld' : Py.truthy listed = true) by (destruct l; reflexivity).
    unfold ensure_guild_exists, try_except.
    rewrite bind_eq, (read_hit _ _ _ Hi). cbv zeta. rewrite (Hor _ Hheld').
    unfold get_guild_data at 1.
    rewrite !bind_eq, (read_hit _ _ _ Hd), ret_eq, (Hor _ Htruthy), Htruthy.
    cbn [negb]. rewrite bind_eq, ret_eq, bind_eq, lift_eq.
    unfold listed. simpl Py.contains.
    cbv iota. rewrite existsb_app. simpl existsb.
    rewrite String.eqb_refl, orb_true_r. reflexivity. }
  exists st1. split; [exact Hfirst|]. split; [reflexivity|].
  intros n. apply Hagain; simpl.
  - apply lookup_insert_eq.
  - rewrite lookup_insert_ne by (apply not_eq_sym, guild_key_not_index).
    exact Hdoc.
Qed.

(** Once its document is cached, a guild costs [sync_guilds] nothing. *)
Lemma sync_guild_cached (guild : discord.Guild) (st : state) :
  cached_document st guild -> sync_guild guild st = (Ok tt, st).
Proof.
  intros (v & Hc & Htruthy). unfold sync_guild, get_guild_data.
  rewrite !bind_eq, (read_hit _ _ _ Hc), ret_eq.
  unfold Py.or_. rewrite Htruthy, Htruthy. reflexivity.
Qed.

Lemma sync_guild_caches (guild : discord.Guild) (st : state) :
  net st = [] ->
  (forall d, json_dumps (PDict d) <> "") ->
  exists st',
    sync_guild guild st = (Ok tt, st') /\
    net st' = [] /\
    cached_document st' guild /\
    (forall k, k <> guild_key (PInt (discord.id guild)) ->
       _cache st' !! k = _cache st !! k).
Proof.
  intros Hnet Hdumps. unfold sync_guild. rewrite bind_eq.
  rewrite get_guild_data_healthy by assumption.
  set (key := guild_key (PInt (discord.id guild))).
  rewrite truthy_or by reflexivity.
  assert (Hnet1 : net (after_read key st) = []) by (apply after_read_net, Hnet).
  destruct (Py.truthy (visible st key)) eqn:Htruthy; cbn [negb].
  - rewrite ret_eq. eexists. split; [reflexivity|]. split; [exact Hnet1|].
    split.
    + exists (visible st key). split; [|exact Htruthy].
      apply after_read_cached, Htruthy.
    + intros k Hk. apply after_read_cache_ne, Hk.
  - rewrite bind_eq. unfold utcnow, gets. rewrite bind_eq.
    rewrite write_healthy by exact Hnet1. rewrite ret_eq.
    eexists. split; [reflexivity|]. split; [apply wrote_net, Hnet1|]. split.
    + eexists. split; [simpl; apply lookup_insert_eq|].
      simpl. destruct (String.eqb _ "") eqn:E; [|reflexivity].
      apply String.eqb_eq in E. destruct (Hdumps _ E).
    + intros k Hk. simpl. rewrite lookup_insert_ne by congruence.
      apply after_read_cache_ne, Hk.
Qed.

Lemma cached_document_frame (guild guild' : discord.Guild) (st st' : state) :
  (forall k, k <> guild_key (PInt (discord.id guild)) ->
     _cache st' !! k = _cache st !! k) ->
  cached_document st' guild ->
  cached_document st guild' -> cached_document st' guild'.
Proof.
  intros Hframe Hnew (v & Hc & Hv).
  destruct (decide (guild_key (PInt (discord.id guild'))
                    = guild_key (PInt (discord.id guild)))) as [Heq|Hne].
  - unfold cached_document. rewrite Heq. exact Hnew.
  - exists v. split; [|exact Hv]. rewrite Hframe by exact Hne. exact Hc.
Qed.

Lemma sync_loop_caches (bot_guilds : list discord.Guild) (success failed : Z)
  (guilds : list value) (st : state) :
  net st = [] ->
  (forall d, json_dumps (PDict d) <> "") ->
  exists st',
    sync_loop bot_guilds success failed guilds st =
      (Ok ((success + Z.of_nat (length bot_guilds))%Z, failed,
           guilds ++ map id_of bot_guilds), st') /\
    net st' = [] /\
    (forall guild, In guild bot_guilds \/ cached_document st guild ->
                   cached_document st' guild).
Proof.
  intros Hnet Hdumps. revert success guilds st Hnet.
  induction bot_guilds as [|guild rest IH]; intros success guilds st Hnet.
  - exists st. simpl. rewrite Z.add_0_r, app_nil_r.
    split; [reflexivity|]. split; [exact Hnet|]. intros g [[]|Hg]. exact Hg.
  - simpl sync_loop. rewrite bind_eq. unfold try_except. rewrite bind_eq.
    destruct (sync_guild_caches guild st Hnet Hdumps)
      as (st1 & Hbody & Hnet1 & Hcached & Hframe).
    rewrite Hbody, ret_eq.
    destruct (IH (success + 1)%Z (guilds ++ [id_of guild]) st1 Hnet1)
      as (st' & Hrest & Hnet' & Hall).
    exists st'. unfold id_of in Hrest at 1. rewrite Hrest.
    rewrite <- app_assoc. simpl length. simpl map.
    replace (success + Z.of_nat (S (length rest)))%Z
      with (success + 1 + Z.of_nat (length rest))%Z by lia.
    split; [reflexivity|]. split; [exact Hnet'|].
    intros g [[<-|Hin]|Hg]; apply Hall.
    + right. exact Hcached.
    + left. exact Hin.
    + right. eapply cached_document_frame; eauto.
Qed.

Lemma sync_loop_cached (bot_guilds : list discord.Guild) (success failed : Z)
  (guilds : list value) (st : state) :
  (forall guild, In guild bot_guilds -> cached_document st guild) ->
  sync_loop bot_guilds success failed guilds st =
    (Ok ((success + Z.of_nat (length bot_guilds))%Z, failed,
         guilds ++ map id_of bot_guilds), st).
Proof.
  revert success guilds.
  induction bot_guilds as [|guild rest IH]; intros success guilds Hall.
  - simpl. rewrite Z.add_0_r, app_nil_r. reflexivity.
  - simpl sync_loop. rewrite bind_eq. unfold try_except. rewrite bind_eq.
    rewrite sync_guild_cached by (apply Hall; left; reflexivity).
    rewrite ret_eq.
    rewrite (IH (success + 1)%Z (guilds ++ [PStr (pretty (discord.id guild))]))
      by (intros g Hg; apply Hall; right; exact Hg).
    rewrite <- app_assoc. simpl length. simpl map.
    replace (success + Z.of_nat (S (length rest)))%Z
      with (success + 1 + Z.of_nat (length rest))%Z by lia.
    reflexivity.
Qed.

(** X18. [sync_guilds] is idempotent on a healthy store: a second call
    with the same guilds gives the same report and sends one request
    only, the POST of the same index; store and cache are as the first
    call left them. *)
Theorem sync_guilds_twice (bot_guilds : list discord.Guild) (st : state) :
  net st = [] ->
  (forall d, json_dumps (PDict d) <> "") ->
  exists r st1 st2,
    sync_guilds bot_guilds st = (Ok r, st1) /\
    sync_guilds bot_guilds st1 = (Ok r, st2) /\
    trace st2 = trace st1
                ++ [POST "guilds" (json_dumps (PList (map id_of bot_guilds)))] /\
    store st2 = store st1 /\
    _cache st2 = _cache st1.
Proof.
  intros Hnet Hdumps. unfold sync_guilds, try_except.
  rewrite bind_eq.
  destruct (sync_loop_caches bot_guilds 0 0 [] st Hnet Hdumps)
    as (s1 & Hloop & Hnet1 & Hall).
  rewrite Hloop. simpl app. rewrite bind_eq.
  rewrite write_healthy by exact Hnet1. rewrite ret_eq.
  set (text := payload (PList (map id_of bot_guilds))).
  set (st1 := wrote "guilds" text s1).
  assert (Hcached : forall guild, In guild bot_guilds ->
            cached_document st1 guild).
  { intros guild Hin. destruct (Hall guild (or_introl Hin)) as (v & Hc & Hv).
    exists v. split; [|exact Hv]. unfold st1. simpl.
    rewrite lookup_insert_ne by (apply not_eq_sym, guild_key_not_index).
    exact Hc. }
  exists (sync_report (0 + Z.of_nat (length bot_guilds)) 0), st1.
  rewrite bind_eq, (sync_loop_cached bot_guilds 0 0 [] st1 Hcached).
  simpl app. rewrite bind_eq.
  rewrite write_healthy by (apply wrote_net, Hnet1). rewrite ret_eq.
  eexists. split; [reflexivity|]. split; [reflexivity|].
  split; [reflexivity|]. fold text.
  split; simpl; rewrite insert_insert_eq; reflexivity.
Qed.

End IndexAgain.

Section CleanupAgain.
Context `{PyRuntime}.

(** X19. [cleanup_old_data] cannot get past a guild whose document is as
    [ensure_guild_exists] and [sync_guilds] create it: its [logs]
    section is a mapping, filtering it raises, and the whole job returns
    [False], on a healthy store, leaving that document as it is. *)
Theorem cleanup_old_data_fails_on_new_guild (days : Z) (l : list value)
  (x : value) (id : Z) (name : string) (joined : Z) (st : state) :
  net st = [] ->
  Py.iter (Py.or_ (visible st "guilds") (PList [])) = Ok l ->
  In x l ->
  visible st (guild_key x) = new_guild_data id name joined ->
  exists st',
    cleanup_old_data days st = (Ok false, st') /\
    store st' !! guild_key x = store st !! guild_key x.
Proof.
  intros Hnet Hiter Hin Hvis. unfold cleanup_old_data, try_except.
  rewrite bind_eq. unfold utcnow at 1, gets at 1. rewrite bind_eq, lift_eq.
  destruct (minus_days (clock st) days) as [cutoff|e].
  - rewrite bind_eq, read_healthy by assumption.
    rewrite bind_eq, lift_eq, Hiter. rewrite bind_eq.
    destruct (cleanup_loop_new_guild cutoff l x id name joined
                (after_read "guilds" st)) as (e & st' & Hrun & Hstore).
    + apply after_read_net, Hnet.
    + exact Hin.
    + rewrite after_read_visible. exact Hvis.
    + rewrite Hrun. exists st'. split; [reflexivity|].
      rewrite Hstore, after_read_store. reflexivity.
  - exists st. split; reflexivity.
Qed.

End CleanupAgain.

Section Optimize.
Context `{PyRuntime}.

Lemma optimize_guild_step (before : option string) (x : value) (s : state) :
  net s = [] ->
  (_cache s !! guild_key x = None /\ store s !! guild_key x = before) \/
  (settled s (guild_key x) /\ store s !! guild_key x = rewritten before) ->
  exists s',
    optimize_guild x s = (Ok tt, s') /\
    net s' = [] /\
    (forall k, k <> guild_key x ->
       _cache s' !! k = _cache s !! k /\ store s' !! k = store s !! k) /\
    settled s' (guild_key x) /\
    store s' !! guild_key x = rewritten before.
Proof.
  intros Hnet Hkey. unfold optimize_guild.
  rewrite bind_eq, get_guild_data_healthy by assumption.
  set (k := guild_key x) in *.
  assert (Hwrite : forall v s1, net s1 = [] ->
            (_write_data k v;; mret tt) s1 = (Ok tt, wrote k (payload v) s1)).
  { intros v s1 Hnet1. rewrite bind_eq, write_healthy by assumption.
    apply ret_eq. }
  unfold settled, visible, after_read, stored, Py.or_ in *.
  destruct (_cache s !! k) as [v|] eqn:Hc.
  - destruct Hkey as [[Hnone _]|[Hset Hstore]]; [discriminate|].
    destruct (Py.truthy v) eqn:Hv.
    + rewrite Hv. destruct (Hset eq_refl) as (p & -> & Hp).
      rewrite Hwrite by assumption. simpl payload.
      eexists. split; [reflexivity|]. unfold wrote. simpl.
      rewrite Hnet. split; [reflexivity|]. split.
      * intros k' Hk'. rewrite !lookup_insert_ne by congruence. auto.
      * rewrite !lookup_insert_eq. split; [eauto|]. congruence.
    + change (Py.truthy (PDict [])) with false. cbv iota. rewrite ret_eq.
      eexists. split; [reflexivity|]. split; [exact Hnet|]. split; [auto|].
      rewrite Hc. split; [congruence|exact Hstore].
  - assert (Hstore : store s !! k = before).
    { destruct Hkey as [[_ Hs]|[Hs Hr]]; [exact Hs|].
      rewrite Hs in Hr. destruct before as [t|]; [|exact Hs].
      simpl in Hr. destruct (Py.truthy (decode t)); discriminate. }
    destruct (store s !! k) as [t|] eqn:Hs; subst before; simpl.
    + destruct (Py.truthy (decode t)) eqn:Ht.
      * rewrite Ht. rewrite Hwrite by (simpl; rewrite Hnet; reflexivity).
        eexists. split; [reflexivity|]. unfold wrote, fetched. simpl.
        rewrite Hnet. split; [reflexivity|]. split.
        -- intros k' Hk'. rewrite !lookup_insert_ne by congruence. auto.
        -- rewrite !lookup_insert_eq. split; [eauto|reflexivity].
      * change (Py.truthy (PDict [])) with false. cbv iota. rewrite ret_eq.
        eexists. split; [reflexivity|]. unfold fetched. simpl.
        rewrite Hnet. split; [reflexivity|]. split.
        -- intros k' Hk'. rewrite !lookup_insert_ne by congruence. auto.
        -- rewrite lookup_insert_eq. split; [congruence|exact Hs].
    + rewrite ret_eq. eexists. split; [reflexivity|]. simpl.
      rewrite Hnet. split; [reflexivity|]. split; [auto|].
      rewrite Hc. auto.
Qed.

Lemma optimize_loop (before : string -> option string) (l : list value) :
  forall s,
    net s = [] ->
    (forall y, In y l ->
       (_cache s !! guild_key y = None /\
        store s !! guild_key y = before (guild_key y)) \/
       (settled s (guild_key y) /\
        store s !! guild_key y = rewritten (before (guild_key y)))) ->
    exists s',
      for_each l optimize_guild s = (Ok tt, s') /\
      (forall y, In y l ->
         store s' !! guild_key y = rewritten (before (guild_key y))) /\
      (forall k, (forall y, In y l -> k <> guild_key y) ->
         store s' !! k = store s !! k).
Proof.
  induction l as [|x l IH]; intros s Hnet Hkeys.
  - exists s. simpl. rewrite ret_eq. split; [reflexivity|].
    split; [intros y []|auto].
  - destruct (optimize_guild_step (before (guild_key x)) x s Hnet)
      as (s1 & Hx & Hnet1 & Hframe & Hset & Hstore).
    { apply Hkeys. left. reflexivity. }
    destruct (IH s1 Hnet1) as (s' & Hrun & Hdone & Hrest).
    { intros y Hy.
      destruct (decide (guild_key y = guild_key x)) as [->|Hne].
      - right. split; assumption.
      - destruct (Hframe _ Hne) as [Hc Hs].
        unfold settled. rewrite Hc, Hs. apply Hkeys. right. exact Hy. }
    exists s'. simpl for_each. rewrite bind_eq, Hx. split; [exact Hrun|].
    split.
    + intros y [<-|Hy]; [|apply Hdone, Hy].
      destruct (decide (guild_key x ∈ map guild_key l)) as [Hin|Hout].
      * apply list_elem_of_In, in_map_iff in Hin.
        destruct Hin as (y & Hy & Hin). rewrite <- Hy. apply Hdone, Hin.
      * rewrite Hrest; [exact Hstore|].
        intros y Hy Heq. apply Hout. apply list_elem_of_In, in_map_iff.
        exists y. split; [congruence|exact Hy].
    + intros k Hk. rewrite Hrest by (intros y Hy; apply Hk; right; exact Hy).
      apply Hframe, Hk. left. reflexivity.
Qed.

(** X20. [optimize] on a healthy store: it reads the index afresh and,
    when that can be iterated, returns [True]; every guild the index
    lists has its stored text replaced by the text [_write_data] sends
    for its decoded value, when that value is truthy, and kept
    otherwise; every other key of the store is left alone. *)
Theorem optimize_rewrites_listed_documents (l : list value) (st : state) :
  net st = [] ->
  Py.iter (Py.or_ (default PNone (stored st "guilds")) (PList [])) = Ok l ->
  exists st',
    optimize st = (Ok true, st') /\
    (forall x, In x l ->
       store st' !! guild_key x = rewritten (store st !! guild_key x)) /\
    (forall k, (forall x, In x l -> k <> guild_key x) ->
       store st' !! k = store st !! k).
Proof.
  intros Hnet Hiter. unfold optimize, try_except.
  rewrite bind_eq. unfold modify at 1.
  set (s0 := set_cache ∅ st).
  assert (Hnet0 : net s0 = []) by exact Hnet.
  rewrite bind_eq, read_healthy by assumption.
  assert (Hvis : visible s0 "guilds" = default PNone (stored st "guilds"))
    by reflexivity.
  rewrite Hvis, bind_eq, lift_eq, Hiter.
  destruct (optimize_loop (fun k => store st !! k) l (after_read "guilds" s0))
    as (s' & Hrun & Hdone & Hrest).
  - apply after_read_net, Hnet0.
  - intros y Hy. left.
    rewrite after_read_cache_ne by apply guild_key_not_index.
    rewrite after_read_store. split; reflexivity.
  - exists s'. rewrite bind_eq, Hrun, ret_eq. split; [reflexivity|].
    split; [exact Hdone|].
    intros k Hk. rewrite Hrest by assumption.
    rewrite after_read_store. reflexivity.
Qed.

End Optimize.

Section CleanupOnText.
Context `{PyRuntime}.

Lemma clean_section_text (section : string) (keep : value -> res bool)
  (s : string) :
  clean_section section keep (PStr s) = Ok (PStr s) \/
  clean_section section keep (PStr s) = Raise TypeError.
Proof.
  unfold clean_section. simpl. destruct (Py.substring_of section s); auto.
Qed.

Lemma clean_section_empty (section : string) (keep : value -> res bool) :
  clean_section section keep (PDict []) = Ok (PDict []).
Proof. reflexivity. Qed.

(** The first visit of a key that has neither a cached nor a stored
    value stores the empty document under it. *)
Lemma cleanup_guild_absent (cutoff : Z) (x : value) (st : state) :
  net st = [] ->
  _cache st !! guild_key x = None ->
  store st !! guild_key x = None ->
  cleanup_guild cutoff x st
    = (Ok tt, wrote (guild_key x) (json_dumps (PDict []))
                (sent (GET (guild_key x)) st)).
Proof.
  intros Hnet Hc Hs. unfold cleanup_guild. cbv zeta.
  rewrite bind_eq, get_guild_data_healthy by assumption.
  unfold visible, after_read, stored. rewrite Hc, Hs. simpl.
  change (Py.or_ PNone (PDict [])) with (PDict []).
  rewrite bind_eq, assign_run, clean_section_empty.
  rewrite bind_eq. unfold utcnow at 1, gets at 1.
  rewrite bind_eq, assign_run, clean_section_empty.
  rewrite bind_eq, assign_run, clean_section_empty.
  rewrite bind_eq, write_healthy by (simpl; rewrite Hnet; reflexivity).
  reflexivity.
Qed.

(** Later visits of the key find the text of the empty document in the
    cache and leave it, and the store, as they are. *)
Lemma cleanup_guild_text (cutoff : Z) (x : value) (st : state)
  (r : res unit) (st' : state) :
  let t := json_dumps (PDict []) in
  net st = [] ->
  _cache st !! guild_key x = Some (PStr t) ->
  store st !! guild_key x = Some t ->
  cleanup_guild cutoff x st = (r, st') ->
  net st' = [] /\
  _cache st' !! guild_key x = Some (PStr t) /\
  store st' !! guild_key x = Some t.
Proof.
  intros t Hnet Hc Hs. unfold cleanup_guild. cbv zeta.
  rewrite bind_eq, get_guild_data_healthy by assumption.
  set (key := guild_key x) in *.
  assert (Hvis : visible st key = PStr t) by (unfold visible; rewrite Hc; reflexivity).
  assert (Hafter : after_read key st = st) by (unfold after_read; rewrite Hc; reflexivity).
  rewrite Hvis, Hafter.
  assert (Hset : assigned true key (PStr t) st = st).
  { destruct st. unfold assigned, set_cache. simpl in *. f_equal.
    apply insert_id, Hc. }
  assert (Hnot : forall d, assigned false key d st = st) by reflexivity.
  unfold Py.or_. destruct (Py.truthy (PStr t)) eqn:Ht.
  - rewrite Ht.
    rewrite bind_eq, assign_run.
    destruct (clean_section_text "logs" (keep_log cutoff) t) as [->| ->];
      [|intros Hrun; inversion Hrun; subst; auto].
    rewrite Hset.
    rewrite bind_eq. unfold utcnow at 1, gets at 1. rewrite bind_eq, assign_run.
    destruct (clean_section_text "mod_actions" (keep_action (clock st)) t)
      as [->| ->];
      [|intros Hrun; inversion Hrun; subst; auto].
    rewrite Hset. rewrite bind_eq, assign_run.
    destruct (clean_section_text "whispers" (keep_whisper cutoff) t)
      as [->| ->];
      [|intros Hrun; inversion Hrun; subst; auto].
    rewrite Hset. rewrite bind_eq, write_healthy by assumption.
    rewrite ret_eq. intros Hrun. inversion Hrun; subst. simpl.
    rewrite Hnet, !lookup_insert_eq. auto.
  - change (Py.truthy (PDict [])) with false.
    rewrite bind_eq, assign_run, clean_section_empty, Hnot.
    rewrite bind_eq. unfold utcnow at 1, gets at 1.
    rewrite bind_eq, assign_run, clean_section_empty, Hnot.
    rewrite bind_eq, assign_run, clean_section_empty, Hnot.
    rewrite bind_eq, write_healthy by assumption.
    rewrite ret_eq. intros Hrun. inversion Hrun; subst. simpl.
    rewrite Hnet, !lookup_insert_eq. auto.
Qed.

(** X21. [cleanup_old_data] with the index cached as text, which is how
    [_write_data] leaves every value it has written: the loop runs over
    the characters of the text, and for the first one, when nothing is
    cached or stored under its key, it stores an empty document there,
    which is still there when the job returns. *)
Theorem cleanup_old_data_on_cached_index_text (days cutoff : Z) (c : ascii)
  (rest : string) (st : state) :
  let key := guild_key (PStr (String c EmptyString)) in
  net st = [] ->
  minus_days (clock st) days = Ok cutoff ->
  _cache st !! "guilds" = Some (PStr (String c rest)) ->
  _cache st !! key = None ->
  store st !! key = None ->
  exists r st',
    cleanup_old_data days st = (Ok r, st') /\
    store st' !! key = Some (json_dumps (PDict [])).
Proof.
  intros key Hnet Hcut Hidx Hc Hs. unfold cleanup_old_data, try_except.
  rewrite bind_eq. unfold utcnow at 1, gets at 1.
  rewrite bind_eq, lift_eq, Hcut.
  rewrite bind_eq, read_healthy by assumption.
  assert (Hvis : visible st "guilds" = PStr (String c rest))
    by (unfold visible; rewrite Hidx; reflexivity).
  assert (Hafter : after_read "guilds" st = st)
    by (unfold after_read; rewrite Hidx; reflexivity).
  rewrite Hvis, Hafter, bind_eq, lift_eq.
  change (Py.iter (Py.or_ (PStr (String c rest)) (PList [])))
    with (Ok (PStr (String c EmptyString) :: Py.chars rest)).
  cbv beta iota. rewrite bind_eq. simpl for_each.
  rewrite bind_eq, cleanup_guild_absent by assumption. fold key.
  set (t := json_dumps (PDict [])).
  set (s1 := wrote key t (sent (GET key) st)).
  set (J := fun s : state =>
              net s = [] /\ _cache s !! key = Some (PStr t) /\
              store s !! key = Some t).
  assert (HJ1 : J s1).
  { unfold J, s1. simpl. rewrite Hnet, !lookup_insert_eq. auto. }
  destruct (for_each (Py.chars rest) (cleanup_guild cutoff) s1)
    as [r s2] eqn:Hloop.
  assert (HJ2 : J s2).
  { apply (for_each_invariant J (cleanup_guild cutoff) (Py.chars rest))
      with (s := s1) (r := r); [|exact HJ1|exact Hloop].
    intros y s r' s' (Hn & Hcy & Hsy) Hy.
    destruct (decide (guild_key y = key)) as [Heq|Hne].
    - unfold J. rewrite <- Heq in *.
      exact (cleanup_guild_text cutoff y s r' s' Hn Hcy Hsy Hy).
    - destruct (cleanup_guild_frame _ _ _ _ _ Hn Hy) as [Hn' Hframe].
      destruct (Hframe key (not_eq_sym Hne)) as [Hc' Hs'].
      unfold J. rewrite Hc', Hs'. auto. }
  destruct HJ2 as (_ & _ & Hstore).
  destruct r as [[]|e].
  - exists true, s2. rewrite ret_eq. auto.
  - exists false, s2. rewrite ret_eq. auto.
Qed.

End CleanupOnText.

Section LogsAgain.
Context `{PyRuntime}.

(** X22. [add_log] on a healthy store, for a guild whose [logs] section
    is a list or absent: the stored document gets, as its [logs], the
    entries it had, without the oldest ones beyond 999, followed by the
    new entry stamped with the time of the call. *)
Theorem add_log_keeps_newest (guild_id : value)
  (log_data doc : list (string * value)) (l : list value) (st : state) :
  net st = [] ->
  Py.or_ (visible st (guild_key guild_id)) (PDict []) = PDict doc ->
  Py.or_ (default (PDict []) (Py.dict_get doc "logs")) (PList []) = PList l ->
  exists st' doc',
    add_log guild_id log_data st = (Ok true, st') /\
    store st' !! guild_key guild_id = Some (json_dumps (PDict doc')) /\
    Py.dict_get doc' "logs" =
      Some (PList (drop (length l - 999) l
                   ++ [PDict (Py.dict_set log_data "timestamp"
                                (PStr (isoformat (clock st))))])).
Proof.
  intros Hnet Hdoc Hlogs.
  destruct (add_log_healthy guild_id log_data doc l st Hnet Hdoc Hlogs)
    as (st' & doc' & Hrun & Hstore & Hget).
  exists st', doc'. split; [exact Hrun|]. split; [exact Hstore|].
  rewrite Hget. f_equal. f_equal.
  set (entry := PDict _). rewrite length_app. simpl length.
  destruct (1000 <? length l + 1)%nat eqn:Hlen.
  - apply Nat.ltb_lt in Hlen. unfold Py.last_n. rewrite length_app.
    simpl length. rewrite drop_app_le by lia. f_equal. f_equal. lia.
  - apply Nat.ltb_ge in Hlen.
    replace (length l - 999)%nat with 0%nat by lia. reflexivity.
Qed.

End LogsAgain.

Section Statistics.
Context `{PyRuntime}.


End Statistics.

(** ** Further runs on the CPython runtime *)
Section FurtherRuns.

(** A run of X3: a document is written, the manager is closed, and the
    document is read again. *)
Lemma write_close_read_witness :
  let v := PDict [("x", PInt 1)] in
  let st1 := wrote "k" (payload v) boot in
  exists st3,
    (close;; _read_data "k") st1 = (Ok (decode (payload v)), st3) /\
    ((forall s, v <> PStr s) -> json_loads (json_dumps v) = Some v ->
     decode (payload v) = v).
Proof.
  intros v st1. apply (write_close_read "k" v boot st1).
  - exact (write_healthy "k" v boot eq_refl).
  - reflexivity.
Defined.

(** A run of X4: the string [[1]] is written and comes back as a
    list. *)
Lemma written_string_is_read_as_json_witness :
  exists st3,
    (close;; _read_data "k") (wrote "k" "[1]" boot)
      = (Ok (PList [PInt 1]), st3).
Proof.
  apply (written_string_is_read_as_json "k" "[1]" (PList [PInt 1]) boot
           (wrote "k" "[1]" boot)).
  - exact (write_healthy "k" (PStr "[1]") boot eq_refl).
  - reflexivity.
  - vm_compute. reflexivity.
Defined.

(** A run of X6: a new manager is initialized. *)
Lemma check_connection_after_initialize_witness :
  let st' := set_net [Unreachable] (run_state initialize boot) in
  check_connection st' = (Ok true, st') /\
  (close;; check_connection) st'
    = (Ok false, set_initialized false (set_cache ∅ st')).
Proof.
  intros st'.
  refine (check_connection_after_initialize boot (run_state initialize boot)
            _ _ [Unreachable]).
  - reflexivity.
  - apply run_pair. vm_compute. reflexivity.
Defined.

(** A run of X7: the document of guild 1 is cached and the store is
    unreachable. *)
Lemma failed_update_section_stays_in_cache_witness :
  let st := set_net [Unreachable]
              (set_cache {["guild:1" := PDict [("id", PStr "1")]]} boot) in
  exists st',
    update_section (PInt 1) "xp_users" (PDict [("u1", PInt 3)]) st
      = (Ok false, st') /\
    store st' = store st /\
    forall n, get_section (PInt 1) "xp_users" (set_net n st')
              = (Ok (PDict [("u1", PInt 3)]), set_net n st').
Proof.
  intros st.
  apply (failed_update_section_stays_in_cache (PInt 1) "xp_users"
           (PDict [("u1", PInt 3)]) [("id", PStr "1")] st).
  - vm_compute. reflexivity.
  - discriminate.
  - vm_compute. discriminate.
Defined.

(** A run of X8: the xp record of [u1] in guild 1. *)
Lemma get_user_xp_in_get_all_xp_witness :
  let st := archive [PStr "1"] [("1", xp_document)] in
  let st' := run_state (get_user_xp (PInt 1) "u1") st in
  exists d,
    get_all_xp (PInt 1) st = (Ok (PDict d), st') /\
    PDict [("xp", PInt 10)] = default PNone (Py.dict_get d "u1").
Proof.
  intros st st'.
  apply (get_user_xp_in_get_all_xp (PInt 1) "u1" (PDict [("xp", PInt 10)])
           st st').
  apply run_pair. vm_compute. reflexivity.
Defined.

(** A run of X9: the stored document of guild 1 is the one a first
    meeting creates. *)
Lemma add_log_on_new_guild_raises_witness :
  let st := archive [PStr "1"] [("1", new_guild_data 1 "g" march_first)] in
  exists st',
    add_log (PInt 1) [("event", PStr "join")] st
      = (Raise AttributeError, st') /\
    store st' = store st /\
    document_posts (trace st') = document_posts (trace st).
Proof.
  intros st.
  apply (add_log_on_new_guild_raises (PInt 1) [("event", PStr "join")]
           1 "g" march_first st).
  - reflexivity.
  - vm_compute. reflexivity.
Defined.

(** A run of X10: the first count of a statistic. *)
Lemma increment_stat_adds_one_witness :
  exists st' d',
    increment_stat 42 "commands" boot = (Ok true, st') /\
    store st' !! stats_key 42 = Some (json_dumps (PDict d')) /\
    Py.dict_get d' "commands" = Some (PInt (0 + 1)) /\
    forall other, other <> "commands" ->
      Py.dict_get d' other = Py.dict_get [] other.
Proof.
  apply (increment_stat_adds_one 42 "commands" [] 0 boot); reflexivity.
Defined.

(** A run of X11: two counts in a row. *)
Lemma increment_stat_again_fails_witness :
  let st' := run_state (increment_stat 42 "commands") boot in
  increment_stat 42 "messages" st' = (Ok false, st').
Proof.
  intros st'.
  refine (increment_stat_again_fails 42 "commands" "messages" boot st'
            _ _ []).
  - intros d. simpl. discriminate.
  - apply run_pair. vm_compute. reflexivity.
Defined.

(** A run of X12: the body of a transaction with one buffered change
    raises. *)
Lemma transaction_abort_writes_nothing_witness :
  let self := mkTransaction 1 "xp" 0 [("a", PDict [])] in
  let st := set_locks [true] boot in
  exists st',
    __aexit__ self (Some ValueError) st = (Ok tt, st') /\
    trace st' = trace st /\ _cache st' = _cache st /\ store st' = store st /\
    locks st' !! _lock self = Some false.
Proof.
  intros self st.
  apply (transaction_abort_writes_nothing self ValueError st). reflexivity.
Defined.

(** A run of X13: the store is unreachable when the scope is left. *)
Lemma transaction_commit_survives_failed_writes_witness :
  let self := mkTransaction 1 "xp" 0 [("a", PDict [])] in
  let st := set_net [Unreachable] (set_locks [true] boot) in
  exists st',
    __aexit__ self None st = (Ok tt, st') /\
    trace st' = trace st ++ map post_of (changes self) /\
    locks st' !! _lock self = Some false.
Proof.
  intros self st.
  apply (transaction_commit_survives_failed_writes self st). reflexivity.
Defined.

(** A run of X14: a transaction is entered while its lock is free. *)
Lemma transaction_reentry_witness :
  let self := mkTransaction 1 "xp" 0 [] in
  let s1 := set_locks [true] boot in
  __aenter__ self s1 = None /\
  exists r s2,
    __aexit__ self None s1 = (r, s2) /\ is_Some (__aenter__ self s2).
Proof.
  intros self s1.
  apply (transaction_reentry self None (set_locks [false] boot) s1).
  reflexivity.
Defined.

(** A run of X15: the first guarded operation of a manager. *)
Lemma safe_operation_releases_witness :
  let self := mkManager boot ∅ in
  let func := mret (PInt 1) : M value in
  exists r self',
    safe_operation "sync" func self = Some (Ok r, self') /\
    (exists held, r = neutral (func (set_locks held (process self))).1) /\
    registry_free self' /\
    is_Some (_operation_locks self' !! "sync") /\
    forall name l, _operation_locks self !! name = Some l ->
                   _operation_locks self' !! name = Some l.
Proof.
  intros self func. apply (safe_operation_releases "sync" func self).
  - intros name l Hl. simpl in Hl. rewrite lookup_empty in Hl.
    discriminate Hl.
  - intros st r st' i b Hrun Hi. unfold func in Hrun.
    injection Hrun as _ <-. exact Hi.
Defined.

(** A run of X16: the rate of the xp settings of a new guild. *)
Lemma new_guild_settings_are_defaults_witness :
  (exists dd, get_defaults "xp_settings" = PDict dd /\
              Py.dict_get dd "rate" = Some (PInt 15)) /\
  (forall other,
     other <> "whisper_config" -> other <> "logs" ->
     other <> "xp_settings" -> other <> "roles" ->
     get_defaults other = PNone).
Proof.
  apply (new_guild_settings_are_defaults 1 "g" march_first
           [("id", PStr (pretty 1%Z));
            ("name", PStr "g");
            ("joined_at", PStr (isoformat march_first));
            ("whisper_config", PDict [("enabled", PBool false)]);
            ("logs", PDict [("enabled", PBool false)]);
            ("xp_settings", PDict [("enabled", PBool true);
                                   ("rate", PInt 15);
                                   ("cooldown", PInt 60)]);
            ("roles", PDict [("color_roles", PList []);
                             ("level_roles", PDict [])])]
           [("enabled", PBool true); ("rate", PInt 15); ("cooldown", PInt 60)]
           "xp_settings" "rate" (PInt 15)); reflexivity.
Defined.

(** A run of X17: guild 2 has a cached document, the cached index lists
    guild 1 only, and the store is unreachable. *)
Lemma ensure_guild_exists_does_not_retry_witness :
  let st := set_net [Unreachable]
              (set_cache (<["guilds" := PList [PStr "1"]]>
                            {["guild:2" := PDict [("id", PStr "2")]]}) boot) in
  exists st1,
    ensure_guild_exists 2 "g" st = (Ok true, st1) /\
    store st1 = store st /\
    forall n, ensure_guild_exists 2 "g" (set_net n st1)
              = (Ok true, set_net n st1).
Proof.
  intros st.
  apply (ensure_guild_exists_does_not_retry 2 "g" [PStr "1"]
           (PDict [("id", PStr "2")]) st).
  - vm_compute. reflexivity.
  - discriminate.
  - vm_compute. reflexivity.
  - vm_compute. reflexivity.
  - reflexivity.
  - vm_compute. discriminate.
Defined.

(** A run of X18: one guild, synchronised twice on a new store. *)
Lemma sync_guilds_twice_witness :
  let bot_guilds := [discord.mkGuild 1 "a"] in
  exists r st1 st2,
    sync_guilds bot_guilds boot = (Ok r, st1) /\
    sync_guilds bot_guilds st1 = (Ok r, st2) /\
    trace st2 = trace st1
                ++ [POST "guilds" (json_dumps (PList (map id_of bot_guilds)))] /\
    store st2 = store st1 /\
    _cache st2 = _cache st1.
Proof.
  intros bot_guilds. apply (sync_guilds_twice bot_guilds boot).
  - reflexivity.
  - intros d. simpl. discriminate.
Defined.

(** A run of X19: the index lists guild 1, whose document is the one a
    first meeting creates. *)
Lemma cleanup_old_data_fails_on_new_guild_witness :
  let st := archive [PStr "1"] [("1", new_guild_data 1 "g" march_first)] in
  exists st',
    cleanup_old_data 30 st = (Ok false, st') /\
    store st' !! guild_key (PStr "1") = store st !! guild_key (PStr "1").
Proof.
  intros st.
  apply (cleanup_old_data_fails_on_new_guild 30 [PStr "1"] (PStr "1")
           1 "g" march_first st).
  - reflexivity.
  - vm_compute. reflexivity.
  - left. reflexivity.
  - vm_compute. reflexivity.
Defined.

(** A run of X20: the index lists guild 1, which has a document. *)
Lemma optimize_rewrites_listed_documents_witness :
  let st := archive [PStr "1"] [("1", xp_document)] in
  exists st',
    optimize st = (Ok true, st') /\
    (forall x, In x [PStr "1"] ->
       store st' !! guild_key x = rewritten (store st !! guild_key x)) /\
    (forall k, (forall x, In x [PStr "1"] -> k <> guild_key x) ->
       store st' !! k = store st !! k).
Proof.
  intros st. apply (optimize_rewrites_listed_documents [PStr "1"] st).
  - reflexivity.
  - vm_compute. reflexivity.
Defined.

(** A run of X21: the empty index has just been written, so the cache
    holds its text, an opening and a closing bracket. *)
Lemma cleanup_old_data_on_cached_index_text_witness :
  let st := wrote "guilds" (payload (PList [])) boot in
  exists r st',
    cleanup_old_data 30 st = (Ok r, st') /\
    store st' !! guild_key (PStr "[") = Some (json_dumps (PDict [])).
Proof.
  intros st.
  apply (cleanup_old_data_on_cached_index_text 30 63842256000000000
           "["%char "]" st).
  - reflexivity.
  - vm_compute. reflexivity.
  - vm_compute. reflexivity.
  - vm_compute. reflexivity.
  - vm_compute. reflexivity.
Defined.

(** A run of X22: a second entry for a guild with one log entry. *)
Lemma add_log_keeps_newest_witness :
  let doc := [("id", PStr "1"); ("logs", PList [old_log])] in
  let st := archive [PStr "1"] [("1", PDict doc)] in
  exists st' doc',
    add_log (PInt 1) [("event", PStr "leave")] st = (Ok true, st') /\
    store st' !! guild_key (PInt 1) = Some (json_dumps (PDict doc')) /\
    Py.dict_get doc' "logs" =
      Some (PList (drop (length [old_log] - 999) [old_log]
                   ++ [PDict (Py.dict_set [("event", PStr "leave")] "timestamp"
                                (PStr (isoformat (clock st))))])).
Proof.
  intros doc st.
  apply (add_log_keeps_newest (PInt 1) [("event", PStr "leave")] doc
           [old_log] st).
  - reflexivity.
  - vm_compute. reflexivity.
  - vm_compute. reflexivity.
Defined.


End FurtherRuns.
